(** * create-replicate-snapshots.py: snapshot creation and cross-region copy

    A shallow embedding of [create-replicate-snapshots.py].  The script talks
    to EC2 through boto3 clients; here a client is an oracle that answers
    requests and may change the state of the cloud, and a run of the script is
    a function from the initial cloud state to the list of things the run did
    (requests with their answers, lines printed), the final cloud state and
    the value returned or the exception raised. *)

From stdpp Require Import base strings numbers list.

Open Scope Z_scope.
Open Scope string_scope.

(** ** Python values

    The responses of boto3 and the decoded JSON input are Python dicts, lists,
    strings and integers.  A dict is kept as an association list in insertion
    order; lookup takes the first binding of a key. *)

#[warnings="-register-all"]
Inductive pyval : Type :=
| PNone
| PInt (n : Z)
| PStr (s : string)
| PList (xs : list pyval)
| PDict (kvs : list (string * pyval)).

(** ** Exceptions

    The classes the script raises, catches or can meet.  [ClientError] derives
    from [Exception] directly, [WaiterError] from [BotoCoreError];
    [SystemExit] (raised by argparse) is not an [Exception]. *)

Inductive exn_class : Type :=
| ExceptionC
| ClientErrorC
| BotoCoreErrorC
| WaiterErrorC
| KeyErrorC
| IndexErrorC
| TypeErrorC
| OSErrorC
| ValueErrorC
| SystemExitC.

#[global] Instance exn_class_eq_dec : EqDecision exn_class.
Proof. solve_decision. Defined.

(** An exception object: its class and what [str(e)] gives. *)
Record exn : Type := Exn { exn_cls : exn_class; exn_str : string }.

(** [issubclass c d]: class [c] is [d] or derives from it. *)
Definition issubclass (c d : exn_class) : bool :=
  match d with
  | ExceptionC => match c with SystemExitC => false | _ => true end
  | BotoCoreErrorC =>
      match c with BotoCoreErrorC | WaiterErrorC => true | _ => false end
  | _ => bool_decide (c = d)
  end.

Definition isinstance (e : exn) (d : exn_class) : bool :=
  issubclass (exn_cls e) d.

Inductive outcome (A : Type) : Type :=
| Ok (a : A)
| Raise (e : exn).
Arguments Ok {A} a.
Arguments Raise {A} e.

(** ** Subscripting and the operators the script uses *)

Fixpoint assoc (k : string) (kvs : list (string * pyval)) : option pyval :=
  match kvs with
  | [] => None
  | (k', v) :: rest => if String.eqb k k' then Some v else assoc k rest
  end.

Definition quote (k : string) : string := "'" +:+ k +:+ "'".

(** [d[k]] for a string key [k]. *)
Definition getitem_key (d : pyval) (k : string) : outcome pyval :=
  match d with
  | PDict kvs =>
      match assoc k kvs with
      | Some v => Ok v
      | None => Raise (Exn KeyErrorC (quote k))
      end
  | PList _ =>
      Raise (Exn TypeErrorC "list indices must be integers or slices, not str")
  | PStr _ => Raise (Exn TypeErrorC "string indices must be integers")
  | PInt _ => Raise (Exn TypeErrorC "'int' object is not subscriptable")
  | PNone => Raise (Exn TypeErrorC "'NoneType' object is not subscriptable")
  end.

(** [d[0]]: the first element of a list, the first character of a string. *)
Definition getitem_0 (d : pyval) : outcome pyval :=
  match d with
  | PList (x :: _) => Ok x
  | PList [] => Raise (Exn IndexErrorC "list index out of range")
  | PStr (String c _) => Ok (PStr (String c ""))
  | PStr "" => Raise (Exn IndexErrorC "string index out of range")
  | PDict _ => Raise (Exn KeyErrorC "0")
  | PInt _ => Raise (Exn TypeErrorC "'int' object is not subscriptable")
  | PNone => Raise (Exn TypeErrorC "'NoneType' object is not subscriptable")
  end.

(** [resp[k][0]['Tags']]: the tags of the first entity described in a
    response, as both tag fetches of the script read them. *)
Definition first_tags (resp : pyval) (k : string) : outcome pyval :=
  match getitem_key resp k with
  | Ok described =>
      match getitem_0 described with
      | Ok entity => getitem_key entity "Tags"
      | Raise e => Raise e
      end
  | Raise e => Raise e
  end.

(** [status_code == 200]. *)
Definition eq_int (v : pyval) (n : Z) : bool :=
  match v with PInt m => Z.eqb m n | _ => false end.

(** ["literal" + v]: defined when [v] is a string. *)
Definition str_add (s : string) (v : pyval) : outcome string :=
  match v with
  | PStr t => Ok (s +:+ t)
  | _ => Raise (Exn TypeErrorC "can only concatenate str to str")
  end.

Fixpoint chars (s : string) : list pyval :=
  match s with
  | "" => []
  | String c rest => PStr (String c "") :: chars rest
  end.

(** [[x for x in v]]: a list gives its elements, a string its characters, a
    dict its keys. *)
Definition iterate (v : pyval) : outcome (list pyval) :=
  match v with
  | PList xs => Ok xs
  | PStr s => Ok (chars s)
  | PDict kvs => Ok (map (fun kv => PStr (fst kv)) kvs)
  | PInt _ => Raise (Exn TypeErrorC "'int' object is not iterable")
  | PNone => Raise (Exn TypeErrorC "'NoneType' object is not iterable")
  end.

(** ** Requests, lines and events *)

(** The EC2 operations the script calls, with the keyword arguments it
    passes.  [WaitSnapshotCompleted] is [get_waiter('snapshot_completed').wait]
    with its [WaiterConfig]. *)
Inductive request : Type :=
| DescribeVolumes (VolumeIds : list pyval)
| CreateSnapshot (VolumeId : pyval) (TagSpecifications : pyval)
| WaitSnapshotCompleted (SnapshotIds : list pyval) (MaxAttempts : Z)
| DescribeSnapshots (SnapshotIds : list pyval)
| CopySnapshot (SourceSnapshotId : pyval) (SourceRegion DestinationRegion : string)
    (TagSpecifications : pyval).

(** A printed line is an f-string: literal text and formatted values. *)
Inductive fragment : Type :=
| Text (s : string)
| Value (v : pyval).

(** What a run does that can be seen from outside: a request sent through the
    client of a region, with the answer it got, or a line printed. *)
Inductive event : Type :=
| EvCall (region : string) (req : request) (resp : outcome pyval)
| EvPrint (line : list fragment).

Definition is_copy_request (ev : event) : bool :=
  match ev with EvCall _ (CopySnapshot _ _ _ _) _ => true | _ => false end.

Definition is_wait_request (ev : event) : bool :=
  match ev with EvCall _ (WaitSnapshotCompleted _ _) _ => true | _ => false end.

(** [TagSpecifications=[{"ResourceType": "snapshot", "Tags": tags}]]. *)
Definition tag_specifications (tags : pyval) : pyval :=
  PList [PDict [("ResourceType", PStr "snapshot"); ("Tags", tags)]].

Definition SNAPSHOT_WAITER : Z := 10.

Definition nl : string := String (Ascii.ascii_of_nat 10) "".

(** ** Runs

    [World] is the state of everything outside the script: the cloud the
    clients talk to and the file system.  A computation takes the world it
    starts in and gives what it did, the world it leaves and its outcome. *)

Section Script.

Context {World : Type}.

Record run (A : Type) : Type := Run {
  trace : list event;
  final : World;
  result : outcome A;
}.
Arguments Run {A} trace final result.
Arguments trace {A} r.
Arguments final {A} r.
Arguments result {A} r.

Definition M (A : Type) : Type := World -> run A.

Definition ret {A} (a : A) : M A := fun w => Run [] w (Ok a).

Definition raise {A} (e : exn) : M A := fun w => Run [] w (Raise e).

Definition bind {A B} (m : M A) (k : A -> M B) : M B := fun w =>
  match m w with
  | Run t w1 (Ok a) =>
      match k a w1 with
      | Run t' w2 o => Run (t ++ t') w2 o
      end
  | Run t w1 (Raise e) => Run t w1 (Raise e)
  end.

(** [try: m  except cls as e: h e]. *)
Definition try_except {A} (m : M A) (cls : exn_class) (h : exn -> M A) : M A :=
  fun w =>
  match m w with
  | Run t w1 (Ok a) => Run t w1 (Ok a)
  | Run t w1 (Raise e) =>
      if isinstance e cls
      then match h e w1 with
           | Run t' w2 o => Run (t ++ t') w2 o
           end
      else Run t w1 (Raise e)
  end.

Definition lift {A} (o : outcome A) : M A := fun w => Run [] w o.

Definition print (line : list fragment) : M unit := fun w =>
  Run [EvPrint line] w (Ok tt).

(** A boto3 EC2 client: the region it is bound to and how the service
    answers a request in a given state of the cloud. *)
Record ec2_client : Type := Client {
  region_name : string;
  invoke : request -> World -> outcome pyval * World;
}.

Definition call (c : ec2_client) (req : request) : M pyval := fun w =>
  let '(resp, w') := invoke c req w in
  Run [EvCall (region_name c) req resp] w' resp.

End Script.

Arguments run World A : clear implicits.
Arguments Run {World A} trace final result.
Arguments trace {World A} r.
Arguments final {World A} r.
Arguments result {World A} r.
Arguments M World A : clear implicits.
Arguments ec2_client World : clear implicits.

Declare Scope py_scope.
Delimit Scope py_scope with py.
Notation "'let*' x ':=' m 'in' k" := (bind m (fun x => k))
  (at level 10, x name, m at level 100, k at level 200) : py_scope.
Notation "'do' m 'then' k" := (bind m (fun _ => k))
  (at level 10, m at level 100, k at level 200) : py_scope.
Open Scope py_scope.

(** ** The script *)

Section Program.

Context {World : Type}.

Abbreviation M := (M World).
Abbreviation client := (ec2_client World).

(** One pass through the body of the [for volume in volumes] loop of
    [create_snapshots_from_vols]; [snapshots] is the list built so far and
    the value is that list after the pass. *)
Definition snapshot_volume (volume : pyval) (ec2_client : client)
    (snapshots : list pyval) : M (list pyval) :=
  let* described := call ec2_client (DescribeVolumes [volume]) in
  let* volume_tags := lift (first_tags described "Volumes") in
  try_except
    (let* r := call ec2_client
                 (CreateSnapshot volume (tag_specifications volume_tags)) in
     let* metadata := lift (getitem_key r "ResponseMetadata") in
     let* status_code := lift (getitem_key metadata "HTTPStatusCode") in
     let* snapshot_id := lift (getitem_key r "SnapshotId") in
     if eq_int status_code 200 then
       let snapshots := (snapshots ++ [snapshot_id])%list in
       do print [Text "Snapshot : "; Value snapshot_id;
                 Text " created for volume "; Value volume]
       then ret snapshots
     else ret snapshots)
    ExceptionC
    (fun e =>
       let* prefix :=
         lift (str_add
           "There was an error creating snapshot for volume with volume id "
           volume) in
       let exception_message :=
         prefix +:+ ". [INFO] Error: " +:+ nl +:+ exn_str e in
       ret snapshots).

Fixpoint for_volume_in (volumes : list pyval) (ec2_client : client)
    (snapshots : list pyval) : M (list pyval) :=
  match volumes with
  | [] => ret snapshots
  | volume :: rest =>
      let* snapshots' := snapshot_volume volume ec2_client snapshots in
      for_volume_in rest ec2_client snapshots'
  end.

Definition create_snapshots_from_vols (volumes : list pyval)
    (ec2_client : client) : M (list pyval) :=
  if bool_decide (Z.of_nat (length volumes) < 1) then
    raise (Exn ExceptionC
      "ERROR: No snapshots in destination region that match defined tags.")
  else
    do print [Value (PInt (Z.of_nat (length volumes)));
              Text " volumes will be snapped!"]
    then for_volume_in volumes ec2_client [].

(** How an iteration of the copy loop ends: it goes on to the next snapshot
    or leaves the function through [return]. *)
Inductive flow : Type := Next | Return.

(** One pass through the body of the [for snapshot in snapshots] loop of
    [copy_snapshot_to_dest_region]. *)
Definition replicate_snapshot (snapshot : pyval)
    (source_client dest_client : client)
    (source_region dest_region : string) : M flow :=
  do try_except
       (do print [Text "Waiting for "; Value snapshot;
                  Text " to become available."]
        then
        do call source_client
             (WaitSnapshotCompleted [snapshot] SNAPSHOT_WAITER)
        then ret tt)
       WaiterErrorC
       (fun e =>
          do print [Text "ERROR: "; Value snapshot;
                    Text " is not available to copy."]
          then raise e)
  then
  try_except
    (let* described := call source_client (DescribeSnapshots [snapshot]) in
     let* snapshot_tags := lift (first_tags described "Snapshots") in
     let* copied :=
       call dest_client
         (CopySnapshot snapshot source_region dest_region
            (tag_specifications snapshot_tags)) in
     let* new_snapshot := lift (getitem_key copied "SnapshotId") in
     do print [Text "Created "; Value new_snapshot; Text " copy in ";
               Text dest_region; Text " from source "; Value snapshot;
               Text " in "; Text source_region]
     then ret Next)
    ClientErrorC
    (fun e =>
       do print [Text "ERROR: failed to make copy of "; Value snapshot;
                 Text " OUTPUT: "; Text (exn_str e)]
       then ret Return).

(** The loop itself: [Next] when it ran to the end of the list, [Return]
    when a pass left the function. *)
Fixpoint for_snapshot_in (snapshots : list pyval)
    (source_client dest_client : client)
    (source_region dest_region : string) : M flow :=
  match snapshots with
  | [] => ret Next
  | snapshot :: rest =>
      let* after :=
        replicate_snapshot snapshot source_client dest_client
          source_region dest_region in
      match after with
      | Next =>
          for_snapshot_in rest source_client dest_client source_region dest_region
      | Return => ret Return
      end
  end.

Definition copy_snapshot_to_dest_region (snapshots : list pyval)
    (source_client dest_client : client)
    (source_region dest_region : string) : M unit :=
  do print [Text "Found "; Value (PInt (Z.of_nat (length snapshots)));
            Text " snapshots to copy from "; Text source_region;
            Text " to "; Text dest_region]
  then
  do for_snapshot_in snapshots source_client dest_client source_region
       dest_region
  then ret tt.

(** The environment of [main]: [json_load file w] is what
    [json.load(open(file))] gives in world [w], and [boto3_client region] is
    [boto3.client('ec2', region_name=region)]. *)
Context (json_load : string -> World -> outcome pyval).
Context (boto3_client : string -> outcome client).

Definition main (file source_region dest_region : string) : M unit :=
  let* json_data := (fun w => lift (json_load file w) w) in
  let* listed := lift (getitem_key json_data "volumes") in
  let* volumes := lift (iterate listed) in
  let* source_client := lift (boto3_client source_region) in
  let* snapshots := create_snapshots_from_vols volumes source_client in
  if negb (String.eqb dest_region "") then
    let* dest_client := lift (boto3_client dest_region) in
    copy_snapshot_to_dest_region snapshots source_client dest_client
      source_region dest_region
  else ret tt.

(** The command line: [-file] and [-source_region] are required,
    [-dest_region] is optional with default [""].  argparse leaves with
    [SystemExit] when a required option is missing. *)
Record arguments : Type := Arguments_ {
  arg_file : option string;
  arg_source_region : option string;
  arg_dest_region : option string;
}.

Definition script (args : arguments) : M unit :=
  match arg_file args, arg_source_region args with
  | Some file, Some source_region =>
      main file source_region (default "" (arg_dest_region args))
  | _, _ => raise (Exn SystemExitC "2")
  end.

End Program.

Arguments main {World} json_load boto3_client file source_region dest_region.
Arguments script {World} json_load boto3_client args.

(** ** Reading a trace *)

(** A successful creation: the create-snapshot request of a volume answered
    with status 200 and a snapshot id.  Gives the volume and the id. *)
Definition created (ev : event) : option (pyval * pyval) :=
  match ev with
  | EvCall _ (CreateSnapshot volume _) (Ok r) =>
      match getitem_key r "ResponseMetadata" with
      | Ok metadata =>
          match getitem_key metadata "HTTPStatusCode", getitem_key r "SnapshotId" with
          | Ok status_code, Ok snapshot_id =>
              if eq_int status_code 200 then Some (volume, snapshot_id) else None
          | _, _ => None
          end
      | Raise _ => None
      end
  | _ => None
  end.

(** The events of the creation phase: its two requests and its two lines. *)
Definition is_creation_event (ev : event) : bool :=
  match ev with
  | EvCall _ (DescribeVolumes _) _ | EvCall _ (CreateSnapshot _ _) _ => true
  | EvPrint [Value (PInt _); Text " volumes will be snapped!"] => true
  | EvPrint [Text "Snapshot : "; Value _; Text " created for volume "; Value _] =>
      true
  | _ => false
  end.

(** The tags a request attaches, read out of the request itself: the value
    under ["Tags"] of its one tag specification. *)
Definition attached_tags (spec : pyval) : option pyval :=
  match spec with
  | PList [PDict specification] => assoc "Tags" specification
  | _ => None
  end.

(** The tags an answer gives, read out of the answer itself: the value under
    ["Tags"] of the first entity listed under [k]. *)
Definition fetched_tags (answer : pyval) (k : string) : option pyval :=
  match answer with
  | PDict fields =>
      match assoc k fields with
      | Some (PList (PDict entity :: _)) => assoc "Tags" entity
      | _ => None
      end
  | _ => None
  end.

(** [carries prev ev]: if [ev] is a request that attaches tags, then [prev],
    the event just before it, is the tag fetch of its source (for a creation,
    through the same client), answered without an exception, and the tags
    found in the request are the tags found in that answer. *)
Definition carries (prev : option event) (ev : event) : Prop :=
  match ev with
  | EvCall region (CreateSnapshot volume spec) _ =>
      exists described tags,
        prev = Some (EvCall region (DescribeVolumes [volume]) (Ok described))
        /\ fetched_tags described "Volumes" = Some tags
        /\ attached_tags spec = Some tags
  | EvCall _ (CopySnapshot snapshot _ _ spec) _ =>
      exists region described tags,
        prev = Some (EvCall region (DescribeSnapshots [snapshot]) (Ok described))
        /\ fetched_tags described "Snapshots" = Some tags
        /\ attached_tags spec = Some tags
  | _ => True
  end.

Fixpoint tags_carried (prev : option event) (t : list event) : Prop :=
  match t with
  | [] => True
  | ev :: t' => carries prev ev /\ tags_carried (Some ev) t'
  end.

(** The tags pass through verbatim: every request of the trace that attaches
    tags carries the tags fetched by the event just before it. *)
Definition tags_verbatim (t : list event) : Prop :=
  forall pre ev post, t = (pre ++ ev :: post)%list -> carries (last pre) ev.

(** The requests of a trace and the lines of a trace, in order. *)
Definition requests (t : list event) : list request :=
  omap (fun ev => match ev with EvCall _ req _ => Some req | EvPrint _ => None end) t.

Definition lines (t : list event) : list (list fragment) :=
  omap (fun ev => match ev with EvPrint line => Some line | EvCall _ _ _ => None end) t.

(** The copy requests of a trace. *)
Definition copy_requests (t : list event) : list event :=
  List.filter is_copy_request t.

(** *** More readers of a trace *)

(** The volume of a create-snapshot request and of a describe-volumes
    request, the snapshot of a copy request and of a wait. *)
Definition creation_requested (ev : event) : option pyval :=
  match ev with EvCall _ (CreateSnapshot volume _) _ => Some volume | _ => None end.

Definition description_requested (ev : event) : option pyval :=
  match ev with EvCall _ (DescribeVolumes [volume]) _ => Some volume | _ => None end.

Definition copied (ev : event) : option pyval :=
  match ev with EvCall _ (CopySnapshot snapshot _ _ _) _ => Some snapshot | _ => None end.

Definition waited (ev : event) : option pyval :=
  match ev with
  | EvCall _ (WaitSnapshotCompleted [snapshot] _) _ => Some snapshot
  | _ => None
  end.

(** The two lines of the creation phase. *)
Definition count_line (n : nat) : list fragment :=
  [Value (PInt (Z.of_nat n)); Text " volumes will be snapped!"].

Definition success_line (made : pyval * pyval) : list fragment :=
  [Text "Snapshot : "; Value made.2; Text " created for volume "; Value made.1].

(** The count line of the replication phase. *)
Definition found_line (n : nat) (source_region dest_region : string) :
    list fragment :=
  [Text "Found "; Value (PInt (Z.of_nat n)); Text " snapshots to copy from ";
   Text source_region; Text " to "; Text dest_region].

(** The events of a pass of the copy loop up to the answer of the wait, and
    the lines it can end with. *)
Definition waiting_line (snapshot : pyval) : list fragment :=
  [Text "Waiting for "; Value snapshot; Text " to become available."].

Definition failed_copy_line (snapshot : pyval) (e : exn) : list fragment :=
  [Text "ERROR: failed to make copy of "; Value snapshot; Text " OUTPUT: ";
   Text (exn_str e)].

Definition created_copy_line (new_snapshot snapshot : pyval)
    (source_region dest_region : string) : list fragment :=
  [Text "Created "; Value new_snapshot; Text " copy in "; Text dest_region;
   Text " from source "; Value snapshot; Text " in "; Text source_region].

(** [creation_event_for region volumes ev]: [ev] is a line, or a
    describe-volumes or create-snapshot request for one volume of [volumes]
    sent through the client of [region]. *)
Definition creation_event_for (region : string) (volumes : list pyval)
    (ev : event) : Prop :=
  match ev with
  | EvCall r (DescribeVolumes [volume]) _ => r = region /\ volume ∈ volumes
  | EvCall r (CreateSnapshot volume _) _ => r = region /\ volume ∈ volumes
  | EvCall _ _ _ => False
  | EvPrint _ => True
  end.

(** [replication_event_for source dest sr dr snapshots ev]: [ev] is a line,
    or a wait (with the bound of the script) or a describe-snapshots request
    for one snapshot of [snapshots] sent through the client of region
    [source], or a copy request for one of them from [sr] to [dr] sent
    through the client of region [dest]. *)
Definition replication_event_for (source dest sr dr : string)
    (snapshots : list pyval) (ev : event) : Prop :=
  match ev with
  | EvCall r (WaitSnapshotCompleted [snapshot] n) _ =>
      r = source /\ n = SNAPSHOT_WAITER /\ snapshot ∈ snapshots
  | EvCall r (DescribeSnapshots [snapshot]) _ =>
      r = source /\ snapshot ∈ snapshots
  | EvCall r (CopySnapshot snapshot sr' dr' _) _ =>
      r = dest /\ sr' = sr /\ dr' = dr /\ snapshot ∈ snapshots
  | EvCall _ _ _ => False
  | EvPrint _ => True
  end.

(** What [main] reads from its file: [json.load(...)['volumes']] as a list. *)
Definition read_volumes {World : Type}
    (json_load : string -> World -> outcome pyval) (file : string) (w : World) :
    outcome (list pyval) :=
  match json_load file w with
  | Ok json_data =>
      match getitem_key json_data "volumes" with
      | Ok listed => iterate listed
      | Raise e => Raise e
      end
  | Raise e => Raise e
  end.

(** ** A small cloud to run the script on

    Volumes [vol-a] and [vol-c] behave; the creation request of [vol-b] is
    rejected, that of [vol-d] is answered with status 500, the snapshot of
    [vol-e] never completes, the copy of the snapshot of [vol-f] is rejected
    and [vol-u] has no tags, so that its description has no [Tags] key.  The
    state of the cloud is the list of snapshots of the source region with
    their tags, newest first. *)

Module Demo.

Definition cloud : Type := list (string * pyval).

Definition tag (k v : string) : pyval :=
  PDict [("Key", PStr k); ("Value", PStr v)].

Definition tagged (v : string) (tags : list pyval) : string * pyval :=
  (v, PDict [("VolumeId", PStr v); ("Tags", PList tags)]).

Definition volume_table : list (string * pyval) :=
  [ tagged "vol-a" [tag "Name" "db"; tag "env" "prod"];
    tagged "vol-b" [tag "Name" "cache"];
    tagged "vol-c" [tag "Name" "logs"];
    tagged "vol-d" [tag "Name" "tmp"];
    tagged "vol-e" [tag "Name" "big"];
    tagged "vol-f" [tag "Name" "sealed"];
    ("vol-u", PDict [("VolumeId", PStr "vol-u")]) ].

Definition response (status : Z) (fields : list (string * pyval)) : pyval :=
  PDict (fields ++ [("ResponseMetadata", PDict [("HTTPStatusCode", PInt status)])]).

Definition rejected (code : string) : outcome pyval :=
  Raise (Exn ClientErrorC code).

Definition ec2 (req : request) (w : cloud) : outcome pyval * cloud :=
  match req with
  | DescribeVolumes [PStr v] =>
      match assoc v volume_table with
      | Some d => (Ok (response 200 [("Volumes", PList [d])]), w)
      | None => (rejected "InvalidVolume.NotFound", w)
      end
  | CreateSnapshot (PStr v) (PList [PDict spec]) =>
      if String.eqb v "vol-b" then
        (rejected "SnapshotCreationPerVolumeRateExceeded", w)
      else if String.eqb v "vol-d" then
        (Ok (response 500 [("SnapshotId", PStr "snap-vol-d")]), w)
      else
        (Ok (response 200 [("SnapshotId", PStr ("snap-" +:+ v))]),
         ("snap-" +:+ v, default PNone (assoc "Tags" spec)) :: w)
  | WaitSnapshotCompleted [PStr s] n =>
      if String.eqb s "snap-vol-e" then
        (Raise (Exn WaiterErrorC
           "Waiter SnapshotCompleted failed: Max attempts exceeded"), w)
      else (Ok PNone, w)
  | DescribeSnapshots [PStr s] =>
      match assoc s w with
      | Some tags =>
          (Ok (response 200
                 [("Snapshots", PList [PDict [("SnapshotId", PStr s); ("Tags", tags)]])]),
           w)
      | None => (rejected "InvalidSnapshot.NotFound", w)
      end
  | CopySnapshot (PStr s) source_region dest_region spec =>
      if String.eqb s "snap-vol-f" then (rejected "ResourceLimitExceeded", w)
      else (Ok (response 200 [("SnapshotId", PStr ("copy-" +:+ s))]), w)
  | _ => (Raise (Exn BotoCoreErrorC "Parameter validation failed"), w)
  end.

Definition boto3_client (region : string) : outcome (ec2_client cloud) :=
  Ok (Client region ec2).

Definition west : ec2_client cloud := Client "us-west-2" ec2.
Definition east : ec2_client cloud := Client "us-east-1" ec2.

Definition vols (names : list string) : list pyval := map PStr names.

Definition json_load (file : string) (w : cloud) : outcome pyval :=
  if String.eqb file "volumes.json" then
    Ok (PDict [("volumes", PList (vols ["vol-a"; "vol-b"; "vol-c"]))])
  else Raise (Exn OSErrorC "No such file or directory").

(** The cloud after the creation phase has run on the volumes [names]. *)
Definition snapped (names : list string) : cloud :=
  final (create_snapshots_from_vols (vols names) west []).

Definition max_attempts_exceeded : exn :=
  Exn WaiterErrorC "Waiter SnapshotCompleted failed: Max attempts exceeded".

End Demo.


(** Variations of the small cloud: a region where the description of a
    snapshot has no [Tags] key, a region that cannot be reached when waiting,
    and more input files. *)

Module DemoMore.

Definition bare_ec2 (req : request) (w : Demo.cloud) : outcome pyval * Demo.cloud :=
  match req with
  | DescribeSnapshots [PStr s] =>
      (Ok (Demo.response 200
             [("Snapshots", PList [PDict [("SnapshotId", PStr s)]])]), w)
  | _ => Demo.ec2 req w
  end.

Definition unreachable : exn :=
  Exn BotoCoreErrorC "Could not connect to the endpoint URL".

Definition offline_ec2 (req : request) (w : Demo.cloud) :
    outcome pyval * Demo.cloud :=
  match req with
  | WaitSnapshotCompleted _ _ => (Raise unreachable, w)
  | _ => Demo.ec2 req w
  end.

Definition bare_west : ec2_client Demo.cloud := Client "us-west-2" bare_ec2.
Definition offline_west : ec2_client Demo.cloud := Client "us-west-2" offline_ec2.

Definition json_load (file : string) (w : Demo.cloud) : outcome pyval :=
  if String.eqb file "untagged.json" then
    Ok (PDict [("volumes", PList (Demo.vols ["vol-a"; "vol-u"; "vol-c"]))])
  else if String.eqb file "no-volumes.json" then
    Ok (PDict [("disks", PList (Demo.vols ["vol-a"]))])
  else Demo.json_load file w.

End DemoMore.

(** Case analysis on the next answer, subscript or test a run depends on. *)
Ltac run_step :=
  match goal with
  | |- context [invoke ?c ?req ?w] =>
      let E := fresh "Hcall" in
      destruct (invoke c req w) as [[?|?] ?] eqn:E
  | |- context [first_tags ?d ?k] =>
      let E := fresh "Htags" in destruct (first_tags d k) eqn:E
  | |- context [getitem_key ?d ?k] =>
      let E := fresh "Hkey" in destruct (getitem_key d k) eqn:E
  | |- context [eq_int ?v ?n] =>
      let E := fresh "Hstatus" in destruct (eq_int v n) eqn:E
  | |- context [isinstance ?e ?cls] =>
      let E := fresh "Hclass" in destruct (isinstance e cls) eqn:E
  | |- context [str_add ?s ?v] =>
      let E := fresh "Hadd" in destruct (str_add s v) eqn:E
  end; cbn -[tag_specifications first_tags getitem_key created isinstance
          str_add eq_int] in *.

Ltac run_simpl :=
  cbn -[tag_specifications first_tags getitem_key created isinstance
       str_add eq_int].

Ltac run_unfold :=
  unfold snapshot_volume, replicate_snapshot, bind, try_except, call, lift,
    print, ret, raise;
  run_simpl.

(** ** Laws of runs *)

Section Facts.

Context {World : Type}.

Implicit Types (w : World) (c : ec2_client World) (t : list event).

Lemma run_eta {A} (r : run World A) : Run (trace r) (final r) (result r) = r.
Proof. by destruct r. Qed.

Lemma bind_ok {A B} (m : M World A) (k : A -> M World B) w t w' a :
  m w = Run t w' (Ok a) ->
  bind m k w = Run (t ++ trace (k a w')) (final (k a w')) (result (k a w')).
Proof. unfold bind; intros ->. by destruct (k a w'). Qed.

Lemma bind_raise {A B} (m : M World A) (k : A -> M World B) w t w' e :
  m w = Run t w' (Raise e) -> bind m k w = Run t w' (Raise e).
Proof. unfold bind; intros ->; done. Qed.

Lemma bind_ret_l {A B} (a : A) (k : A -> M World B) w : bind (ret a) k w = k a w.
Proof. unfold bind, ret. by destruct (k a w). Qed.

Lemma bind_assoc {A B C} (m : M World A) (k : A -> M World B)
    (k' : B -> M World C) w :
  bind (bind m k) k' w = bind m (fun a => bind (k a) k') w.
Proof.
  unfold bind. destruct (m w) as [t w1 [a|e]]; [|done].
  destruct (k a w1) as [t2 w2 [b|e]]; [|done].
  destruct (k' b w2). by rewrite app_assoc.
Qed.

(** The loops over a list put together from two parts. *)
Lemma for_volume_in_app (pre post : list pyval) c (snapshots : list pyval) w :
  for_volume_in (pre ++ post) c snapshots w
  = bind (for_volume_in pre c snapshots) (for_volume_in post c) w.
Proof.
  revert snapshots w. induction pre as [|volume pre IH]; intros snapshots w.
  - cbn [for_volume_in app]. by rewrite bind_ret_l.
  - cbn [for_volume_in app]. rewrite bind_assoc.
    destruct (snapshot_volume volume c snapshots w) as [t w1 [s|e]] eqn:E.
    + rewrite !(bind_ok _ _ _ _ _ _ E). by rewrite IH.
    + by rewrite !(bind_raise _ _ _ _ _ _ E).
Qed.

Lemma for_snapshot_in_app (pre post : list pyval) c c' (sr dr : string) w :
  for_snapshot_in (pre ++ post) c c' sr dr w
  = bind (for_snapshot_in pre c c' sr dr)
      (fun after => match after with
                    | Next => for_snapshot_in post c c' sr dr
                    | Return => ret Return
                    end) w.
Proof.
  revert w. induction pre as [|snapshot pre IH]; intros w.
  - cbn [for_snapshot_in app]. by rewrite bind_ret_l.
  - cbn [for_snapshot_in app]. rewrite bind_assoc.
    destruct (replicate_snapshot snapshot c c' sr dr w) as [t w1 [[|]|e]] eqn:E.
    + rewrite !(bind_ok _ _ _ _ _ _ E). by rewrite IH.
    + rewrite !(bind_ok _ _ _ _ _ _ E). by rewrite bind_ret_l.
    + by rewrite !(bind_raise _ _ _ _ _ _ E).
Qed.

(** *** One pass of the creation loop *)

Lemma snapshot_volume_events (volume : pyval) c (snapshots : list pyval) w :
  Forall (fun ev => is_creation_event ev = true)
    (trace (snapshot_volume volume c snapshots w)).
Proof.
  run_unfold. repeat run_step; repeat constructor.
Qed.

(** What the script reads with [first_tags] is what is in the answer, and
    what it sends with [tag_specifications] holds the tags it was given. *)
Lemma first_tags_fetched (answer : pyval) (k : string) (tags : pyval) :
  first_tags answer k = Ok tags -> fetched_tags answer k = Some tags.
Proof.
  unfold first_tags, fetched_tags.
  destruct answer as [|n|s|xs|fields]; try done. cbn [getitem_key].
  destruct (assoc k fields) as [listed|]; [|done].
  destruct listed as [|n|[|a s]|[|entity xs]|kvs]; try done. cbn [getitem_0].
  destruct entity as [|n|s|ys|entity]; try done. cbn [getitem_key].
  destruct (assoc "Tags" entity); [|done]. by intros [= ->].
Qed.

Lemma attached_tag_specifications (tags : pyval) :
  attached_tags (tag_specifications tags) = Some tags.
Proof. done. Qed.

Lemma snapshot_volume_carries (volume : pyval) c (snapshots : list pyval) w prev :
  tags_carried prev (trace (snapshot_volume volume c snapshots w)).
Proof.
  run_unfold.
  repeat run_step; repeat split;
    eauto 10 using first_tags_fetched, attached_tag_specifications.
Qed.

(** What a pass adds to the list is the snapshot of its volume, when the
    creation succeeded, and nothing otherwise. *)
Lemma snapshot_volume_result (volume : pyval) c (snapshots out : list pyval) w :
  result (snapshot_volume volume c snapshots w) = Ok out ->
  let made := omap created (trace (snapshot_volume volume c snapshots w)) in
  out = (snapshots ++ made.*2)%list /\ sublist (made.*1) [volume].
Proof.
  run_unfold.
  repeat run_step; intros [= <-]; unfold created;
    rewrite ?Hkey, ?Hkey0, ?Hkey1, ?Hstatus; cbn;
    rewrite ?app_nil_r; split; try done;
    by (apply sublist_nil_l || constructor).
Qed.

(** *** The creation loop and [create_snapshots_from_vols] *)

Lemma trace_bind {A B} (m : M World A) (k : A -> M World B) w :
  trace (bind m k w)
  = (trace (m w) ++
     match result (m w) with
     | Ok a => trace (k a (final (m w)))
     | Raise _ => []
     end)%list.
Proof.
  unfold bind. destruct (m w) as [t w1 [a|e]]; cbn.
  - by destruct (k a w1).
  - by rewrite app_nil_r.
Qed.

Lemma result_bind {A B} (m : M World A) (k : A -> M World B) w :
  result (bind m k w)
  = match result (m w) with
    | Ok a => result (k a (final (m w)))
    | Raise e => Raise e
    end.
Proof.
  unfold bind. destruct (m w) as [t w1 [a|e]]; cbn; [|done].
  by destruct (k a w1).
Qed.

Lemma tags_carried_app prev t t' :
  tags_carried prev t -> (forall p, tags_carried p t') ->
  tags_carried prev (t ++ t').
Proof.
  revert prev. induction t as [|ev t IH]; intros prev Ht Ht'; cbn; [done|].
  destruct Ht as [Hev Ht]. split; [done|]. by apply IH.
Qed.

Lemma for_volume_in_events (volumes : list pyval) c (snapshots : list pyval) w :
  Forall (fun ev => is_creation_event ev = true)
    (trace (for_volume_in volumes c snapshots w)).
Proof.
  revert snapshots w. induction volumes as [|volume rest IH]; intros snapshots w.
  - constructor.
  - cbn [for_volume_in]. rewrite trace_bind. apply Forall_app. split.
    + apply snapshot_volume_events.
    + destruct (result _); [apply IH|constructor].
Qed.

Lemma for_volume_in_carries (volumes : list pyval) c (snapshots : list pyval) w prev :
  tags_carried prev (trace (for_volume_in volumes c snapshots w)).
Proof.
  revert snapshots w prev.
  induction volumes as [|volume rest IH]; intros snapshots w prev.
  - done.
  - cbn [for_volume_in]. rewrite trace_bind. apply tags_carried_app.
    + apply snapshot_volume_carries.
    + intros p. destruct (result _); [apply IH|done].
Qed.

Lemma for_volume_in_result (volumes : list pyval) c (snapshots out : list pyval) w :
  result (for_volume_in volumes c snapshots w) = Ok out ->
  let made := omap created (trace (for_volume_in volumes c snapshots w)) in
  out = (snapshots ++ made.*2)%list /\ sublist (made.*1) volumes.
Proof.
  revert snapshots w. induction volumes as [|volume rest IH]; intros snapshots w.
  - intros [= <-]. cbn. by rewrite app_nil_r.
  - cbn [for_volume_in]. rewrite result_bind, trace_bind.
    destruct (result (snapshot_volume volume c snapshots w)) as [mid|e] eqn:Hpass;
      [|done].
    intros Hrest. apply IH in Hrest as [-> Hsub].
    apply snapshot_volume_result in Hpass as [-> Hsub1].
    cbn zeta. rewrite omap_app, !fmap_app, app_assoc. split; [done|].
    by apply (sublist_app _ [volume]).
Qed.

Lemma tags_carried_verbatim prev t pre ev post :
  tags_carried prev t -> t = (pre ++ ev :: post)%list ->
  carries (from_option Some prev (last pre)) ev.
Proof.
  revert prev t. induction pre as [|ev' pre IH]; intros prev t Ht ->.
  - by destruct Ht.
  - destruct Ht as [_ Ht]. specialize (IH (Some ev') _ Ht eq_refl).
    rewrite last_cons. by destruct (last pre).
Qed.

Lemma tags_carried_none t : tags_carried None t -> tags_verbatim t.
Proof.
  intros Ht pre ev post E. pose proof (tags_carried_verbatim _ _ _ _ _ Ht E) as H.
  by destruct (last pre).
Qed.

Lemma create_snapshots_from_vols_cons (volume : pyval) (rest : list pyval) c w :
  create_snapshots_from_vols (volume :: rest) c w
  = bind (print [Value (PInt (Z.of_nat (length (volume :: rest))));
                 Text " volumes will be snapped!"])
      (fun _ => for_volume_in (volume :: rest) c []) w.
Proof.
  unfold create_snapshots_from_vols. rewrite bool_decide_eq_false_2; [done|].
  cbn [length]. lia.
Qed.

(** A pass whose creation request is answered with a status other than 200
    does two requests, prints nothing and leaves the list as it was. *)
Lemma snapshot_volume_non_200 (volume : pyval) c (snapshots : list pyval) w
    described tags w1 r w2 metadata status_code snapshot_id :
  invoke c (DescribeVolumes [volume]) w = (Ok described, w1) ->
  first_tags described "Volumes" = Ok tags ->
  invoke c (CreateSnapshot volume (tag_specifications tags)) w1 = (Ok r, w2) ->
  getitem_key r "ResponseMetadata" = Ok metadata ->
  getitem_key metadata "HTTPStatusCode" = Ok status_code ->
  eq_int status_code 200 = false ->
  getitem_key r "SnapshotId" = Ok snapshot_id ->
  snapshot_volume volume c snapshots w
  = Run [EvCall (region_name c) (DescribeVolumes [volume]) (Ok described);
         EvCall (region_name c) (CreateSnapshot volume (tag_specifications tags))
           (Ok r)]
      w2 (Ok snapshots).
Proof.
  intros Hd Ht Hc Hm Hs Hne Hid. run_unfold.
  rewrite Hd; run_simpl. rewrite Ht; run_simpl. rewrite Hc; run_simpl. rewrite Hm; run_simpl.
  rewrite Hs; run_simpl. rewrite Hid; run_simpl. by rewrite Hne.
Qed.

(** A pass whose tag fetch fails raises: the failure leaves the loop. *)
Lemma snapshot_volume_fetch_raises (volume : pyval) c (snapshots : list pyval) w
    described w1 e :
  invoke c (DescribeVolumes [volume]) w = (Ok described, w1) ->
  first_tags described "Volumes" = Raise e ->
  snapshot_volume volume c snapshots w
  = Run [EvCall (region_name c) (DescribeVolumes [volume]) (Ok described)]
      w1 (Raise e).
Proof.
  intros Hd Ht. run_unfold. rewrite Hd; run_simpl. by rewrite Ht.
Qed.

(** A pass whose creation request raises an [Exception] goes on with the list
    as it was and prints nothing about it.  (The volume id is a string, so
    that the message of the handler can be built.) *)
Lemma snapshot_volume_rejected (v : string) c (snapshots : list pyval) w
    described tags w1 e w2 :
  invoke c (DescribeVolumes [PStr v]) w = (Ok described, w1) ->
  first_tags described "Volumes" = Ok tags ->
  invoke c (CreateSnapshot (PStr v) (tag_specifications tags)) w1 = (Raise e, w2) ->
  isinstance e ExceptionC = true ->
  snapshot_volume (PStr v) c snapshots w
  = Run [EvCall (region_name c) (DescribeVolumes [PStr v]) (Ok described);
         EvCall (region_name c) (CreateSnapshot (PStr v) (tag_specifications tags))
           (Raise e)]
      w2 (Ok snapshots).
Proof.
  intros Hd Ht Hc He. run_unfold.
  rewrite Hd; run_simpl. rewrite Ht; run_simpl. rewrite Hc; run_simpl. by rewrite He.
Qed.

End Facts.

(** ** The creation phase *)

Section Creation.

Context {World : Type}.

Implicit Types (w : World) (c : ec2_client World).

(** C6: for the empty volume list, [create_snapshots_from_vols] fails with
    its empty-input exception before doing anything: the run has no request
    and no line, and the world is as it was. *)
Theorem empty_volume_list_fails c w :
  create_snapshots_from_vols [] c w
  = Run [] w
      (Raise (Exn ExceptionC
         "ERROR: No snapshots in destination region that match defined tags."))
  /\ requests (trace (create_snapshots_from_vols [] c w)) = [].
Proof. done. Qed.

(** C5: for a non-empty volume list, the list returned by
    [create_snapshots_from_vols] is exactly the ids of the creations that
    succeeded during the run, in the order of the run; the volumes of these
    creations are a subsequence of the input, so the result is not longer
    than the input and a volume whose creation failed has no entry. *)
Theorem returned_snapshots_are_the_created_ones (volumes out : list pyval) c w :
  volumes <> [] ->
  result (create_snapshots_from_vols volumes c w) = Ok out ->
  let made := omap created (trace (create_snapshots_from_vols volumes c w)) in
  out = made.*2
  /\ sublist (made.*1) volumes
  /\ (length out <= length volumes)%nat.
Proof.
  intros Hne. destruct volumes as [|volume rest]; [done|].
  rewrite create_snapshots_from_vols_cons, result_bind, trace_bind.
  cbn [print result trace final]. intros Hloop.
  apply for_volume_in_result in Hloop as [-> Hsub].
  cbn zeta. cbn [app omap created]. split; [done|]. split; [done|].
  apply sublist_length in Hsub. by rewrite !length_fmap in *.
Qed.

(** C10: a volume whose creation request is answered, without an exception,
    with a status code other than 200 contributes two requests and nothing
    else: no line is printed for it, and the volumes after it are processed
    with the list of snapshots as it was before it. *)
Theorem non_200_response_is_dropped (pre rest : list pyval) (volume : pyval) c w
    (snapshots : list pyval) described tags w1 r w2 metadata status_code
    snapshot_id :
  let before := for_volume_in pre c [] w in
  result before = Ok snapshots ->
  invoke c (DescribeVolumes [volume]) (final before) = (Ok described, w1) ->
  first_tags described "Volumes" = Ok tags ->
  invoke c (CreateSnapshot volume (tag_specifications tags)) w1 = (Ok r, w2) ->
  getitem_key r "ResponseMetadata" = Ok metadata ->
  getitem_key metadata "HTTPStatusCode" = Ok status_code ->
  eq_int status_code 200 = false ->
  getitem_key r "SnapshotId" = Ok snapshot_id ->
  let after := for_volume_in rest c snapshots w2 in
  create_snapshots_from_vols (pre ++ volume :: rest) c w
  = Run (EvPrint [Value (PInt (Z.of_nat (length (pre ++ volume :: rest))));
                  Text " volumes will be snapped!"]
         :: trace before
         ++ [EvCall (region_name c) (DescribeVolumes [volume]) (Ok described);
             EvCall (region_name c)
               (CreateSnapshot volume (tag_specifications tags)) (Ok r)]
         ++ trace after)
      (final after) (result after).
Proof.
  intros before Hbefore Hd Ht Hc Hm Hs Hne Hid after.
  assert (Hrun : for_volume_in pre c [] w
                 = Run (trace before) (final before) (Ok snapshots)).
  { rewrite <- Hbefore. symmetry. apply run_eta. }
  unfold create_snapshots_from_vols.
  rewrite bool_decide_eq_false_2 by (rewrite length_app; cbn; lia).
  erewrite bind_ok by done. rewrite for_volume_in_app.
  erewrite bind_ok by exact Hrun. cbn [for_volume_in].
  erewrite bind_ok by (eapply snapshot_volume_non_200; eassumption).
  done.
Qed.

End Creation.

Lemma returned_snapshots_are_the_created_ones_witness :
  let volumes := Demo.vols ["vol-a"; "vol-b"; "vol-d"; "vol-c"] in
  let r := create_snapshots_from_vols volumes Demo.west [] in
  result r = Ok [PStr "snap-vol-a"; PStr "snap-vol-c"]
  /\ [PStr "snap-vol-a"; PStr "snap-vol-c"] = (omap created (trace r)).*2
  /\ sublist ((omap created (trace r)).*1) volumes
  /\ (2 <= 4)%nat.
Proof.
  split; [reflexivity|].
  apply (returned_snapshots_are_the_created_ones
           (Demo.vols ["vol-a"; "vol-b"; "vol-d"; "vol-c"])
           [PStr "snap-vol-a"; PStr "snap-vol-c"] Demo.west []).
  - discriminate.
  - reflexivity.
Defined.

Lemma non_200_response_is_dropped_witness :
  result (create_snapshots_from_vols (Demo.vols ["vol-a"; "vol-d"; "vol-c"])
            Demo.west [])
  = Ok [PStr "snap-vol-a"; PStr "snap-vol-c"]
  /\ lines (trace (create_snapshots_from_vols
                     (Demo.vols ["vol-a"; "vol-d"; "vol-c"]) Demo.west []))
     = [ [Value (PInt 3); Text " volumes will be snapped!"];
         [Text "Snapshot : "; Value (PStr "snap-vol-a");
          Text " created for volume "; Value (PStr "vol-a")];
         [Text "Snapshot : "; Value (PStr "snap-vol-c");
          Text " created for volume "; Value (PStr "vol-c")] ].
Proof.
  change (Demo.vols ["vol-a"; "vol-d"; "vol-c"])
    with (Demo.vols ["vol-a"] ++ PStr "vol-d" :: Demo.vols ["vol-c"])%list.
  rewrite (non_200_response_is_dropped
             (Demo.vols ["vol-a"]) (Demo.vols ["vol-c"]) (PStr "vol-d")
             Demo.west [] [PStr "snap-vol-a"]
             _ _ _ _ _ _ (PInt 500) (PStr "snap-vol-d")
             eq_refl eq_refl eq_refl eq_refl eq_refl eq_refl eq_refl eq_refl).
  split; reflexivity.
Defined.

(** ** The replication phase *)

Section Replication.

Context {World : Type}.

Implicit Types (w : World) (c sc dc : ec2_client World) (sr dr : string).

Lemma replicate_snapshot_carries (snapshot : pyval) sc dc sr dr w prev :
  tags_carried prev (trace (replicate_snapshot snapshot sc dc sr dr w)).
Proof.
  run_unfold.
  repeat run_step; repeat split;
    eauto 10 using first_tags_fetched, attached_tag_specifications.
Qed.

Lemma for_snapshot_in_carries (snapshots : list pyval) sc dc sr dr w prev :
  tags_carried prev (trace (for_snapshot_in snapshots sc dc sr dr w)).
Proof.
  revert w prev. induction snapshots as [|snapshot rest IH]; intros w prev.
  - done.
  - cbn [for_snapshot_in]. rewrite trace_bind. apply tags_carried_app.
    + apply replicate_snapshot_carries.
    + intros p. destruct (result _) as [[|]|]; [apply IH|done|done].
Qed.

(** A pass whose wait ends with a [WaiterError]: the error line is printed
    and the error raised again. *)
Lemma replicate_snapshot_unready (snapshot : pyval) sc dc sr dr w e w1 :
  invoke sc (WaitSnapshotCompleted [snapshot] SNAPSHOT_WAITER) w = (Raise e, w1) ->
  isinstance e WaiterErrorC = true ->
  replicate_snapshot snapshot sc dc sr dr w
  = Run [EvPrint [Text "Waiting for "; Value snapshot;
                  Text " to become available."];
         EvCall (region_name sc)
           (WaitSnapshotCompleted [snapshot] SNAPSHOT_WAITER) (Raise e);
         EvPrint [Text "ERROR: "; Value snapshot;
                  Text " is not available to copy."]]
      w1 (Raise e).
Proof.
  intros Hwait He. run_unfold. rewrite Hwait; run_simpl. by rewrite He.
Qed.

(** A pass whose copy request is rejected with a [ClientError]: the error
    line is printed and the function left. *)
Lemma replicate_snapshot_rejected (snapshot : pyval) sc dc sr dr w
    waited w1 described w2 tags e w3 :
  invoke sc (WaitSnapshotCompleted [snapshot] SNAPSHOT_WAITER) w = (Ok waited, w1) ->
  invoke sc (DescribeSnapshots [snapshot]) w1 = (Ok described, w2) ->
  first_tags described "Snapshots" = Ok tags ->
  invoke dc (CopySnapshot snapshot sr dr (tag_specifications tags)) w2
    = (Raise e, w3) ->
  isinstance e ClientErrorC = true ->
  replicate_snapshot snapshot sc dc sr dr w
  = Run [EvPrint [Text "Waiting for "; Value snapshot;
                  Text " to become available."];
         EvCall (region_name sc)
           (WaitSnapshotCompleted [snapshot] SNAPSHOT_WAITER) (Ok waited);
         EvCall (region_name sc) (DescribeSnapshots [snapshot]) (Ok described);
         EvCall (region_name dc)
           (CopySnapshot snapshot sr dr (tag_specifications tags)) (Raise e);
         EvPrint [Text "ERROR: failed to make copy of "; Value snapshot;
                  Text " OUTPUT: "; Text (exn_str e)]]
      w3 (Ok Return).
Proof.
  intros Hwait Hd Ht Hcopy He. run_unfold.
  rewrite Hwait; run_simpl. rewrite Hd; run_simpl. rewrite Ht; run_simpl. rewrite Hcopy; run_simpl.
  by rewrite He.
Qed.

Lemma for_snapshot_in_run (snapshots : list pyval) sc dc sr dr w after :
  result (for_snapshot_in snapshots sc dc sr dr w) = Ok after ->
  for_snapshot_in snapshots sc dc sr dr w
  = Run (trace (for_snapshot_in snapshots sc dc sr dr w))
      (final (for_snapshot_in snapshots sc dc sr dr w)) (Ok after).
Proof. intros <-. symmetry. apply run_eta. Qed.

(** C4: tags pass through verbatim at both hops.  Take any event of a run of
    [create_snapshots_from_vols] or of [copy_snapshot_to_dest_region].  If it
    is a create-snapshot request, the event just before it is the
    describe-volumes request of the same volume through the same client,
    answered without an exception, and the tags found in the create request
    are the tags found in that answer.  If it is a copy request, the event
    just before it is the describe-snapshots request of the same snapshot,
    answered without an exception, and the tags found in the copy request are
    the tags found in that answer. *)
Theorem tags_pass_through_verbatim (volumes snapshots : list pyval) c sc dc sr dr
    w w' (pre post : list event) (ev : event) :
  trace (create_snapshots_from_vols volumes c w) = (pre ++ ev :: post)%list
  \/ trace (copy_snapshot_to_dest_region snapshots sc dc sr dr w')
     = (pre ++ ev :: post)%list ->
  match ev with
  | EvCall region (CreateSnapshot volume spec) _ =>
      exists described tags,
        last pre = Some (EvCall region (DescribeVolumes [volume]) (Ok described))
        /\ fetched_tags described "Volumes" = Some tags
        /\ attached_tags spec = Some tags
  | EvCall _ (CopySnapshot snapshot _ _ spec) _ =>
      exists region described tags,
        last pre
        = Some (EvCall region (DescribeSnapshots [snapshot]) (Ok described))
        /\ fetched_tags described "Snapshots" = Some tags
        /\ attached_tags spec = Some tags
  | _ => True
  end.
Proof.
  intros Hcut. change (carries (last pre) ev).
  destruct Hcut as [Hcut|Hcut]; revert Hcut; apply tags_carried_none.
  - destruct volumes as [|volume rest]; [done|].
    rewrite create_snapshots_from_vols_cons, trace_bind.
    cbn [print result trace final app]. split; [done|].
    apply for_volume_in_carries.
  - unfold copy_snapshot_to_dest_region. rewrite trace_bind.
    cbn [print result trace final app]. split; [done|].
    rewrite trace_bind. apply tags_carried_app.
    + apply for_snapshot_in_carries.
    + intros p. by destruct (result _).
Qed.

(** C9: for the empty snapshot list, [copy_snapshot_to_dest_region] returns
    normally, sends no request and prints one line, the count of zero
    snapshots to copy. *)
Theorem empty_snapshot_list_is_a_no_op sc dc sr dr w :
  copy_snapshot_to_dest_region [] sc dc sr dr w
  = Run [EvPrint [Text "Found "; Value (PInt 0);
                  Text " snapshots to copy from "; Text sr;
                  Text " to "; Text dr]]
      w (Ok tt)
  /\ requests (trace (copy_snapshot_to_dest_region [] sc dc sr dr w)) = [].
Proof. done. Qed.

(** C2: when the snapshots before it were waited on and copied and the wait
    for a snapshot, bounded by 10 attempts, ends with a [WaiterError],
    [copy_snapshot_to_dest_region] raises that error to its caller; the run
    ends with the error line, and its copy requests are those of the
    snapshots before: none for this snapshot, none for the snapshots after
    it. *)
Theorem unready_snapshot_aborts_replication (done_ rest : list pyval)
    (snapshot : pyval) sc dc sr dr w e w1 :
  let before := for_snapshot_in done_ sc dc sr dr w in
  result before = Ok Next ->
  invoke sc (WaitSnapshotCompleted [snapshot] 10) (final before) = (Raise e, w1) ->
  isinstance e WaiterErrorC = true ->
  let r := copy_snapshot_to_dest_region (done_ ++ snapshot :: rest) sc dc sr dr w in
  result r = Raise e
  /\ trace r
     = (EvPrint [Text "Found ";
                 Value (PInt (Z.of_nat (length (done_ ++ snapshot :: rest))));
                 Text " snapshots to copy from "; Text sr; Text " to "; Text dr]
        :: trace before
        ++ [EvPrint [Text "Waiting for "; Value snapshot;
                     Text " to become available."];
            EvCall (region_name sc) (WaitSnapshotCompleted [snapshot] 10)
              (Raise e);
            EvPrint [Text "ERROR: "; Value snapshot;
                     Text " is not available to copy."]])%list
  /\ copy_requests (trace r) = copy_requests (trace before).
Proof.
  intros before Hbefore Hwait He r.
  assert (Hr : r = Run
            (EvPrint [Text "Found ";
                      Value (PInt (Z.of_nat (length (done_ ++ snapshot :: rest))));
                      Text " snapshots to copy from "; Text sr; Text " to ";
                      Text dr]
             :: trace before
             ++ [EvPrint [Text "Waiting for "; Value snapshot;
                          Text " to become available."];
                 EvCall (region_name sc) (WaitSnapshotCompleted [snapshot] 10)
                   (Raise e);
                 EvPrint [Text "ERROR: "; Value snapshot;
                          Text " is not available to copy."]])%list
            w1 (Raise e)).
  { unfold r, copy_snapshot_to_dest_region.
    erewrite bind_ok by done. erewrite bind_raise; [done|].
    rewrite for_snapshot_in_app.
    erewrite bind_ok by (by apply for_snapshot_in_run).
    cbn [for_snapshot_in].
    erewrite bind_raise by (by apply replicate_snapshot_unready).
    done. }
  rewrite Hr. cbn [result trace]. split; [done|]. split; [done|].
  unfold copy_requests. cbn [List.filter is_copy_request].
  rewrite List.filter_app. cbn. by rewrite app_nil_r.
Qed.

(** C3: when the snapshots before it were waited on and copied and the copy
    request of a snapshot is rejected with a [ClientError],
    [copy_snapshot_to_dest_region] prints an error line that names the
    snapshot and gives the text of the error, and returns: the run ends there,
    whatever snapshots come after it in the list. *)
Theorem rejected_copy_ends_replication (done_ rest : list pyval)
    (snapshot : pyval) sc dc sr dr w waited w1 described w2 tags e w3 :
  let before := for_snapshot_in done_ sc dc sr dr w in
  result before = Ok Next ->
  invoke sc (WaitSnapshotCompleted [snapshot] 10) (final before) = (Ok waited, w1) ->
  invoke sc (DescribeSnapshots [snapshot]) w1 = (Ok described, w2) ->
  first_tags described "Snapshots" = Ok tags ->
  invoke dc (CopySnapshot snapshot sr dr (tag_specifications tags)) w2
    = (Raise e, w3) ->
  isinstance e ClientErrorC = true ->
  copy_snapshot_to_dest_region (done_ ++ snapshot :: rest) sc dc sr dr w
  = Run (EvPrint [Text "Found ";
                  Value (PInt (Z.of_nat (length (done_ ++ snapshot :: rest))));
                  Text " snapshots to copy from "; Text sr; Text " to "; Text dr]
         :: trace before
         ++ [EvPrint [Text "Waiting for "; Value snapshot;
                      Text " to become available."];
             EvCall (region_name sc) (WaitSnapshotCompleted [snapshot] 10)
               (Ok waited);
             EvCall (region_name sc) (DescribeSnapshots [snapshot]) (Ok described);
             EvCall (region_name dc)
               (CopySnapshot snapshot sr dr (tag_specifications tags)) (Raise e);
             EvPrint [Text "ERROR: failed to make copy of "; Value snapshot;
                      Text " OUTPUT: "; Text (exn_str e)]])%list
      w3 (Ok tt).
Proof.
  intros before Hbefore Hwait Hd Ht Hcopy He.
  unfold copy_snapshot_to_dest_region.
  erewrite bind_ok by done. erewrite bind_ok; cycle 1.
  { rewrite for_snapshot_in_app.
    erewrite bind_ok by (by apply for_snapshot_in_run).
    cbn [for_snapshot_in].
    erewrite bind_ok by (by eapply replicate_snapshot_rejected).
    done. }
  cbn. by rewrite app_nil_r.
Qed.

End Replication.

Lemma tags_pass_through_verbatim_witness :
  let db_tags := PList [Demo.tag "Name" "db"; Demo.tag "env" "prod"] in
  (exists pre spec resp post described,
     trace (create_snapshots_from_vols (Demo.vols ["vol-a"]) Demo.west [])
     = (pre ++ EvCall "us-west-2" (CreateSnapshot (PStr "vol-a") spec) resp
            :: post)%list
     /\ last pre
        = Some (EvCall "us-west-2" (DescribeVolumes [PStr "vol-a"]) (Ok described))
     /\ fetched_tags described "Volumes" = Some db_tags
     /\ attached_tags spec = Some db_tags)
  /\ (exists pre spec resp post described,
        trace (copy_snapshot_to_dest_region (Demo.vols ["snap-vol-a"])
                 Demo.west Demo.east "us-west-2" "us-east-1"
                 (Demo.snapped ["vol-a"]))
        = (pre ++ EvCall "us-east-1"
                    (CopySnapshot (PStr "snap-vol-a") "us-west-2" "us-east-1" spec)
                    resp
               :: post)%list
        /\ last pre
           = Some (EvCall "us-west-2" (DescribeSnapshots [PStr "snap-vol-a"])
                     (Ok described))
        /\ fetched_tags described "Snapshots" = Some db_tags
        /\ attached_tags spec = Some db_tags).
Proof.
  cbv zeta. split.
  - pose proof (tags_pass_through_verbatim
                  (Demo.vols ["vol-a"]) [] Demo.west Demo.west Demo.east
                  "us-west-2" "us-east-1" [] []
                  (firstn 2 (trace (create_snapshots_from_vols
                                      (Demo.vols ["vol-a"]) Demo.west [])))
                  (skipn 3 (trace (create_snapshots_from_vols
                                     (Demo.vols ["vol-a"]) Demo.west [])))
                  (EvCall "us-west-2"
                     (CreateSnapshot (PStr "vol-a")
                        (PList [PDict [("ResourceType", PStr "snapshot");
                                       ("Tags",
                                        PList [Demo.tag "Name" "db";
                                               Demo.tag "env" "prod"])]]))
                     (Ok (Demo.response 200
                            [("SnapshotId", PStr "snap-vol-a")])))
                  (or_introl eq_refl))
      as (described & tags & Hlast & Hfetched & Hattached).
    exists (firstn 2 (trace (create_snapshots_from_vols
                               (Demo.vols ["vol-a"]) Demo.west []))),
      (PList [PDict [("ResourceType", PStr "snapshot");
                     ("Tags",
                      PList [Demo.tag "Name" "db"; Demo.tag "env" "prod"])]]),
      (Ok (Demo.response 200 [("SnapshotId", PStr "snap-vol-a")])),
      (skipn 3 (trace (create_snapshots_from_vols
                         (Demo.vols ["vol-a"]) Demo.west []))),
      described.
    split; [reflexivity|]. split; [exact Hlast|].
    injection Hattached as <-. split; [exact Hfetched|reflexivity].
  - pose proof (tags_pass_through_verbatim
                  [] (Demo.vols ["snap-vol-a"]) Demo.west Demo.west Demo.east
                  "us-west-2" "us-east-1" [] (Demo.snapped ["vol-a"])
                  (firstn 4 (trace (copy_snapshot_to_dest_region
                                      (Demo.vols ["snap-vol-a"]) Demo.west
                                      Demo.east "us-west-2" "us-east-1"
                                      (Demo.snapped ["vol-a"]))))
                  (skipn 5 (trace (copy_snapshot_to_dest_region
                                     (Demo.vols ["snap-vol-a"]) Demo.west
                                     Demo.east "us-west-2" "us-east-1"
                                     (Demo.snapped ["vol-a"]))))
                  (EvCall "us-east-1"
                     (CopySnapshot (PStr "snap-vol-a") "us-west-2" "us-east-1"
                        (PList [PDict [("ResourceType", PStr "snapshot");
                                       ("Tags",
                                        PList [Demo.tag "Name" "db";
                                               Demo.tag "env" "prod"])]]))
                     (Ok (Demo.response 200
                            [("SnapshotId", PStr "copy-snap-vol-a")])))
                  (or_intror eq_refl))
      as (region & described & tags & Hlast & Hfetched & Hattached).
    exists (firstn 4 (trace (copy_snapshot_to_dest_region
                               (Demo.vols ["snap-vol-a"]) Demo.west
                               Demo.east "us-west-2" "us-east-1"
                               (Demo.snapped ["vol-a"])))),
      (PList [PDict [("ResourceType", PStr "snapshot");
                     ("Tags",
                      PList [Demo.tag "Name" "db"; Demo.tag "env" "prod"])]]),
      (Ok (Demo.response 200 [("SnapshotId", PStr "copy-snap-vol-a")])),
      (skipn 5 (trace (copy_snapshot_to_dest_region
                         (Demo.vols ["snap-vol-a"]) Demo.west
                         Demo.east "us-west-2" "us-east-1"
                         (Demo.snapped ["vol-a"])))),
      described.
    split; [reflexivity|]. split; [rewrite Hlast; by injection Hlast as <- _|].
    injection Hattached as <-. split; [exact Hfetched|reflexivity].
Defined.

Lemma unready_snapshot_aborts_replication_witness :
  let r := copy_snapshot_to_dest_region
             (Demo.vols ["snap-vol-a"; "snap-vol-e"; "snap-vol-c"])
             Demo.west Demo.east "us-west-2" "us-east-1"
             (Demo.snapped ["vol-a"; "vol-e"; "vol-c"]) in
  result r = Raise Demo.max_attempts_exceeded
  /\ map (fun ev => match ev with
                    | EvCall _ (CopySnapshot s _ _ _) _ => s
                    | _ => PNone
                    end) (copy_requests (trace r))
     = [PStr "snap-vol-a"].
Proof.
  destruct (unready_snapshot_aborts_replication
              (Demo.vols ["snap-vol-a"]) (Demo.vols ["snap-vol-c"])
              (PStr "snap-vol-e") Demo.west Demo.east "us-west-2" "us-east-1"
              (Demo.snapped ["vol-a"; "vol-e"; "vol-c"])
              Demo.max_attempts_exceeded _ eq_refl eq_refl eq_refl)
    as (Hresult & _ & Hcopies).
  split; [exact Hresult|].
  cbv zeta. change (Demo.vols ["snap-vol-a"; "snap-vol-e"; "snap-vol-c"])
    with (Demo.vols ["snap-vol-a"] ++ PStr "snap-vol-e" :: Demo.vols ["snap-vol-c"])%list.
  rewrite Hcopies. reflexivity.
Defined.

Lemma rejected_copy_ends_replication_witness :
  let r := copy_snapshot_to_dest_region
             (Demo.vols ["snap-vol-a"; "snap-vol-f"; "snap-vol-c"])
             Demo.west Demo.east "us-west-2" "us-east-1"
             (Demo.snapped ["vol-a"; "vol-f"; "vol-c"]) in
  result r = Ok tt
  /\ last (lines (trace r))
     = Some [Text "ERROR: failed to make copy of "; Value (PStr "snap-vol-f");
             Text " OUTPUT: "; Text "ResourceLimitExceeded"]
  /\ map (fun ev => match ev with
                    | EvCall _ (CopySnapshot s _ _ _) _ => s
                    | _ => PNone
                    end) (copy_requests (trace r))
     = [PStr "snap-vol-a"; PStr "snap-vol-f"].
Proof.
  cbv zeta. change (Demo.vols ["snap-vol-a"; "snap-vol-f"; "snap-vol-c"])
    with (Demo.vols ["snap-vol-a"] ++ PStr "snap-vol-f" :: Demo.vols ["snap-vol-c"])%list.
  rewrite (rejected_copy_ends_replication
             (Demo.vols ["snap-vol-a"]) (Demo.vols ["snap-vol-c"])
             (PStr "snap-vol-f") Demo.west Demo.east "us-west-2" "us-east-1"
             (Demo.snapped ["vol-a"; "vol-f"; "vol-c"])
             _ _ _ _ _ (Exn ClientErrorC "ResourceLimitExceeded") _
             eq_refl eq_refl eq_refl eq_refl eq_refl eq_refl).
  repeat split; reflexivity.
Defined.

(** ** The driver *)

Section Driver.

Context {World : Type}.
Context (json_load : string -> World -> outcome pyval).
Context (boto3_client : string -> outcome (ec2_client World)).

Implicit Types (w : World) (c sc dc : ec2_client World).

Lemma creation_event_is_no_replication (ev : event) :
  is_creation_event ev = true ->
  is_wait_request ev = false /\ is_copy_request ev = false.
Proof. destruct ev as [region [] resp|line]; cbn; done. Qed.

Lemma create_snapshots_from_vols_events (volumes : list pyval) c w :
  Forall (fun ev => is_creation_event ev = true)
    (trace (create_snapshots_from_vols volumes c w)).
Proof.
  destruct volumes as [|volume rest]; [constructor|].
  rewrite create_snapshots_from_vols_cons, trace_bind.
  cbn [print result trace final app]. constructor; [done|].
  apply for_volume_in_events.
Qed.

(** Every run of [copy_snapshot_to_dest_region] starts with its count line,
    which is no event of the creation phase. *)
Lemma replication_is_visible (snapshots : list pyval) sc dc sr dr w :
  exists ev t,
    trace (copy_snapshot_to_dest_region snapshots sc dc sr dr w) = ev :: t
    /\ is_creation_event ev = false.
Proof.
  unfold copy_snapshot_to_dest_region. rewrite trace_bind.
  cbn [print result trace final app]. by eexists _, _.
Qed.

Lemma main_without_destination (file source_region : string) w :
  Forall (fun ev => is_creation_event ev = true)
    (trace (main json_load boto3_client file source_region "" w)).
Proof.
  unfold main. rewrite !trace_bind. cbn [lift result trace final app].
  destruct (json_load file w) as [json_data|e]; [|constructor].
  rewrite !trace_bind. cbn [lift result trace final app].
  destruct (getitem_key json_data "volumes") as [listed|e]; [|constructor].
  rewrite !trace_bind. cbn [lift result trace final app].
  destruct (iterate listed) as [volumes|e]; [|constructor].
  rewrite !trace_bind. cbn [lift result trace final app].
  destruct (boto3_client source_region) as [source_client|e]; [|constructor].
  rewrite !trace_bind. cbn [String.eqb negb].
  apply Forall_app. split; [apply create_snapshots_from_vols_events|].
  destruct (result _); constructor.
Qed.

(** C8: when [-dest_region] is absent or empty, every event of the run of
    the script is an event of the creation phase: no wait request and no copy
    request is sent, and no run of [copy_snapshot_to_dest_region] is part of
    the run. *)
Theorem no_destination_no_replication (args : arguments) w :
  arg_dest_region args = None \/ arg_dest_region args = Some "" ->
  let t := trace (script json_load boto3_client args w) in
  Forall (fun ev => is_creation_event ev = true
                    /\ is_wait_request ev = false
                    /\ is_copy_request ev = false) t
  /\ forall (snapshots : list pyval) sc dc sr dr w' pre post,
       t <> (pre ++ trace (copy_snapshot_to_dest_region snapshots sc dc sr dr w')
                 ++ post)%list.
Proof.
  intros Hdest t.
  assert (Ht : Forall (fun ev => is_creation_event ev = true) t).
  { unfold t, script.
    destruct (arg_file args) as [file|]; [|constructor].
    destruct (arg_source_region args) as [source_region|]; [|constructor].
    replace (default "" (arg_dest_region args)) with "" by (by destruct Hdest as [-> | ->]).
    apply main_without_destination. }
  split.
  - eapply Forall_impl; [exact Ht|]. intros ev Hev. split; [done|].
    by apply creation_event_is_no_replication.
  - intros snapshots sc dc sr dr w' pre post E.
    destruct (replication_is_visible snapshots sc dc sr dr w') as (ev & t' & Et & Hev).
    rewrite E, Et in Ht. apply Forall_app in Ht as [_ Ht].
    apply Forall_app in Ht as [Ht _]. apply Forall_cons in Ht as [Ht _].
    congruence.
Qed.

End Driver.

Lemma no_destination_no_replication_witness :
  let t := trace (script Demo.json_load Demo.boto3_client
                    (Arguments_ (Some "volumes.json") (Some "us-west-2") None) []) in
  length t = 9%nat
  /\ Forall (fun ev => is_creation_event ev = true
                       /\ is_wait_request ev = false
                       /\ is_copy_request ev = false) t.
Proof.
  split; [reflexivity|].
  apply (no_destination_no_replication Demo.json_load Demo.boto3_client
           (Arguments_ (Some "volumes.json") (Some "us-west-2") None) []).
  left. reflexivity.
Defined.

(** ** Where the script departs from what is asked of it *)

(** C1: a volume whose tag fetch fails ends the whole batch.  On the volumes
    [vol-a], [vol-u], [vol-c], where [vol-u] has no tags, the snapshot of
    [vol-a] is created, the description of [vol-u] has no [Tags] key, the
    [KeyError] leaves [create_snapshots_from_vols], no request is made for
    [vol-c] and the id of the snapshot of [vol-a] is lost to the caller. *)
Theorem tag_fetch_failure_ends_the_batch :
  let r := create_snapshots_from_vols (Demo.vols ["vol-a"; "vol-u"; "vol-c"])
             Demo.west [] in
  result r = Raise (Exn KeyErrorC "'Tags'")
  /\ omap created (trace r) = [(PStr "vol-a", PStr "snap-vol-a")]
  /\ requests (trace r)
     = [ DescribeVolumes [PStr "vol-a"];
         CreateSnapshot (PStr "vol-a")
           (tag_specifications
              (PList [Demo.tag "Name" "db"; Demo.tag "env" "prod"]));
         DescribeVolumes [PStr "vol-u"] ].
Proof. repeat split; reflexivity. Qed.

(** C7: the error of a volume whose creation fails is not reported.  On the
    volumes [vol-a], [vol-b], [vol-c], where the creation request of [vol-b]
    is rejected, the lines printed are the count and the two successes:
    nothing names [vol-b] or the error of the provider. *)
Theorem creation_error_is_not_reported :
  let r := create_snapshots_from_vols (Demo.vols ["vol-a"; "vol-b"; "vol-c"])
             Demo.west [] in
  result r = Ok [PStr "snap-vol-a"; PStr "snap-vol-c"]
  /\ In (EvCall "us-west-2"
           (CreateSnapshot (PStr "vol-b")
              (tag_specifications (PList [Demo.tag "Name" "cache"])))
           (Raise (Exn ClientErrorC "SnapshotCreationPerVolumeRateExceeded")))
        (trace r)
  /\ lines (trace r)
     = [ [Value (PInt 3); Text " volumes will be snapped!"];
         [Text "Snapshot : "; Value (PStr "snap-vol-a");
          Text " created for volume "; Value (PStr "vol-a")];
         [Text "Snapshot : "; Value (PStr "snap-vol-c");
          Text " created for volume "; Value (PStr "vol-c")] ].
Proof.
  repeat split; try reflexivity.
  cbn. repeat (first [left; reflexivity | right]).
Qed.

(** ** More on the creation phase *)

Section MoreCreation.

Context {World : Type}.

Implicit Types (w : World) (c : ec2_client World) (t : list event).

Lemma run_of_result {A} (r : run World A) (o : outcome A) :
  result r = o -> r = Run (trace r) (final r) o.
Proof. intros <-. by destruct r. Qed.

(** The run of [create_snapshots_from_vols] on a list cut at one volume,
    when the pass of that volume returns and when it raises. *)
Lemma creation_run_continues (pre rest : list pyval) (volume : pyval) c w
    (snapshots snapshots' : list pyval) t w2 :
  result (for_volume_in pre c [] w) = Ok snapshots ->
  snapshot_volume volume c snapshots (final (for_volume_in pre c [] w))
    = Run t w2 (Ok snapshots') ->
  create_snapshots_from_vols (pre ++ volume :: rest) c w
  = Run (EvPrint (count_line (length (pre ++ volume :: rest)))
         :: trace (for_volume_in pre c [] w) ++ t
         ++ trace (for_volume_in rest c snapshots' w2))
      (final (for_volume_in rest c snapshots' w2))
      (result (for_volume_in rest c snapshots' w2)).
Proof.
  intros Hbefore Hpass. unfold create_snapshots_from_vols.
  rewrite bool_decide_eq_false_2 by (rewrite length_app; cbn; lia).
  erewrite bind_ok by done. rewrite for_volume_in_app.
  erewrite bind_ok by (by apply run_of_result). cbn [for_volume_in].
  erewrite bind_ok by exact Hpass. done.
Qed.

Lemma creation_run_stops (pre rest : list pyval) (volume : pyval) c w
    (snapshots : list pyval) t w2 e :
  result (for_volume_in pre c [] w) = Ok snapshots ->
  snapshot_volume volume c snapshots (final (for_volume_in pre c [] w))
    = Run t w2 (Raise e) ->
  create_snapshots_from_vols (pre ++ volume :: rest) c w
  = Run (EvPrint (count_line (length (pre ++ volume :: rest)))
         :: trace (for_volume_in pre c [] w) ++ t)
      w2 (Raise e).
Proof.
  intros Hbefore Hpass. unfold create_snapshots_from_vols.
  rewrite bool_decide_eq_false_2 by (rewrite length_app; cbn; lia).
  erewrite bind_ok by done. rewrite for_volume_in_app.
  erewrite bind_ok by (by apply run_of_result). cbn [for_volume_in].
  erewrite bind_raise by exact Hpass. done.
Qed.

Lemma snapshot_volume_created (volume : pyval) c (snapshots : list pyval) w
    described tags w1 r w2 metadata status_code snapshot_id :
  invoke c (DescribeVolumes [volume]) w = (Ok described, w1) ->
  first_tags described "Volumes" = Ok tags ->
  invoke c (CreateSnapshot volume (tag_specifications tags)) w1 = (Ok r, w2) ->
  getitem_key r "ResponseMetadata" = Ok metadata ->
  getitem_key metadata "HTTPStatusCode" = Ok status_code ->
  eq_int status_code 200 = true ->
  getitem_key r "SnapshotId" = Ok snapshot_id ->
  snapshot_volume volume c snapshots w
  = Run [EvCall (region_name c) (DescribeVolumes [volume]) (Ok described);
         EvCall (region_name c) (CreateSnapshot volume (tag_specifications tags))
           (Ok r);
         EvPrint (success_line (volume, snapshot_id))]
      w2 (Ok (snapshots ++ [snapshot_id])%list).
Proof.
  intros Hd Ht Hc Hm Hs Hne Hid. run_unfold.
  rewrite Hd; run_simpl. rewrite Ht; run_simpl. rewrite Hc; run_simpl.
  rewrite Hm; run_simpl. rewrite Hs; run_simpl. rewrite Hid; run_simpl.
  by rewrite Hne.
Qed.

Lemma snapshot_volume_describe_raises (volume : pyval) c (snapshots : list pyval)
    w e w1 :
  invoke c (DescribeVolumes [volume]) w = (Raise e, w1) ->
  snapshot_volume volume c snapshots w
  = Run [EvCall (region_name c) (DescribeVolumes [volume]) (Raise e)] w1 (Raise e).
Proof. intros Hd. run_unfold. by rewrite Hd. Qed.

(** X1: a volume, named by a string, whose create-snapshot request raises an
    [Exception] is skipped: the pass does its two requests, prints nothing,
    and the volumes after it are processed with the list of snapshots as it
    was. *)
Theorem rejected_creation_is_skipped (pre rest : list pyval) (v : string) c w
    (snapshots : list pyval) described tags w1 e w2 :
  let before := for_volume_in pre c [] w in
  result before = Ok snapshots ->
  invoke c (DescribeVolumes [PStr v]) (final before) = (Ok described, w1) ->
  first_tags described "Volumes" = Ok tags ->
  invoke c (CreateSnapshot (PStr v) (tag_specifications tags)) w1 = (Raise e, w2) ->
  isinstance e ExceptionC = true ->
  let after := for_volume_in rest c snapshots w2 in
  create_snapshots_from_vols (pre ++ PStr v :: rest) c w
  = Run (EvPrint (count_line (length (pre ++ PStr v :: rest)))
         :: trace before
         ++ [EvCall (region_name c) (DescribeVolumes [PStr v]) (Ok described);
             EvCall (region_name c)
               (CreateSnapshot (PStr v) (tag_specifications tags)) (Raise e)]
         ++ trace after)
      (final after) (result after).
Proof.
  intros before Hbefore Hd Ht Hc He after.
  eapply creation_run_continues; [done|].
  by eapply snapshot_volume_rejected.
Qed.

(** X2: a volume whose create-snapshot request is answered with status 200
    and a snapshot id gets that id appended at the end of the list and its
    success line printed; the volumes after it are processed with the longer
    list. *)
Theorem successful_creation_is_appended (pre rest : list pyval) (volume : pyval)
    c w (snapshots : list pyval) described tags w1 r w2 metadata status_code
    snapshot_id :
  let before := for_volume_in pre c [] w in
  result before = Ok snapshots ->
  invoke c (DescribeVolumes [volume]) (final before) = (Ok described, w1) ->
  first_tags described "Volumes" = Ok tags ->
  invoke c (CreateSnapshot volume (tag_specifications tags)) w1 = (Ok r, w2) ->
  getitem_key r "ResponseMetadata" = Ok metadata ->
  getitem_key metadata "HTTPStatusCode" = Ok status_code ->
  eq_int status_code 200 = true ->
  getitem_key r "SnapshotId" = Ok snapshot_id ->
  let after := for_volume_in rest c (snapshots ++ [snapshot_id]) w2 in
  create_snapshots_from_vols (pre ++ volume :: rest) c w
  = Run (EvPrint (count_line (length (pre ++ volume :: rest)))
         :: trace before
         ++ [EvCall (region_name c) (DescribeVolumes [volume]) (Ok described);
             EvCall (region_name c)
               (CreateSnapshot volume (tag_specifications tags)) (Ok r);
             EvPrint (success_line (volume, snapshot_id))]
         ++ trace after)
      (final after) (result after).
Proof.
  intros before Hbefore Hd Ht Hc Hm Hs Hok Hid after.
  eapply creation_run_continues; [done|].
  by eapply snapshot_volume_created.
Qed.

(** X3: a volume whose tag fetch fails, because describe-volumes raises or
    because its answer has no tags to read, ends the run: the exception
    leaves [create_snapshots_from_vols], no create-snapshot request is made
    for the volume and nothing is done for the volumes after it. *)
Theorem failed_tag_fetch_leaves_the_loop (pre rest : list pyval) (volume : pyval)
    c w (snapshots : list pyval) answer w1 e :
  let before := for_volume_in pre c [] w in
  result before = Ok snapshots ->
  invoke c (DescribeVolumes [volume]) (final before) = (answer, w1) ->
  match answer with
  | Ok described => first_tags described "Volumes" = Raise e
  | Raise e' => e' = e
  end ->
  create_snapshots_from_vols (pre ++ volume :: rest) c w
  = Run (EvPrint (count_line (length (pre ++ volume :: rest)))
         :: trace before
         ++ [EvCall (region_name c) (DescribeVolumes [volume]) answer])
      w1 (Raise e).
Proof.
  intros before Hbefore Hd Hanswer.
  eapply creation_run_stops; [done|].
  destruct answer as [described|e']; [|subst e'].
  - by eapply snapshot_volume_fetch_raises.
  - by eapply snapshot_volume_describe_raises.
Qed.

End MoreCreation.

Section CreationTraces.

Context {World : Type}.

Implicit Types (w : World) (c : ec2_client World) (t : list event).

Lemma creation_event_for_mono (region : string) (vs vs' : list pyval) (ev : event) :
  vs ⊆ vs' -> creation_event_for region vs ev -> creation_event_for region vs' ev.
Proof.
  intros Hsub. destruct ev as [r [[|v [|]]|v spec|ids n|ids|s sr dr spec] resp|line];
    cbn; try done; intros [-> Hin]; split; try done; by apply Hsub.
Qed.

Lemma snapshot_volume_requests (volume : pyval) c (snapshots : list pyval) w :
  Forall (creation_event_for (region_name c) [volume])
    (trace (snapshot_volume volume c snapshots w)).
Proof.
  run_unfold.
  repeat run_step; repeat constructor; by apply list_elem_of_singleton.
Qed.

Lemma for_volume_in_requests (volumes : list pyval) c (snapshots : list pyval) w :
  Forall (creation_event_for (region_name c) volumes)
    (trace (for_volume_in volumes c snapshots w)).
Proof.
  revert snapshots w. induction volumes as [|volume rest IH]; intros snapshots w.
  - constructor.
  - cbn [for_volume_in]. rewrite trace_bind. apply Forall_app. split.
    + eapply Forall_impl; [apply snapshot_volume_requests|].
      intros ev. apply creation_event_for_mono.
      intros v Hv. apply list_elem_of_singleton in Hv as ->. by left.
    + destruct (result _); [|constructor].
      eapply Forall_impl; [apply IH|].
      intros ev. apply creation_event_for_mono.
      intros v Hv. by right.
Qed.

(** X4: whatever the answers of the service, [create_snapshots_from_vols]
    sends only describe-volumes and create-snapshot requests, each for one
    volume of its input and each through the client it was given: it never
    waits, copies or describes snapshots, and never touches another volume. *)
Theorem creation_touches_only_its_volumes (volumes : list pyval) c w :
  Forall (creation_event_for (region_name c) volumes)
    (trace (create_snapshots_from_vols volumes c w)).
Proof.
  destruct volumes as [|volume rest]; [constructor|].
  rewrite create_snapshots_from_vols_cons, trace_bind.
  cbn [print result trace final app]. constructor; [done|].
  apply for_volume_in_requests.
Qed.

Lemma snapshot_volume_attempt (volume : pyval) c (snapshots out : list pyval) w :
  result (snapshot_volume volume c snapshots w) = Ok out ->
  omap description_requested (trace (snapshot_volume volume c snapshots w))
    = [volume]
  /\ omap creation_requested (trace (snapshot_volume volume c snapshots w))
    = [volume].
Proof.
  run_unfold. repeat run_step; done.
Qed.

Lemma for_volume_in_attempts (volumes : list pyval) c (snapshots out : list pyval) w :
  result (for_volume_in volumes c snapshots w) = Ok out ->
  omap description_requested (trace (for_volume_in volumes c snapshots w))
    = volumes
  /\ omap creation_requested (trace (for_volume_in volumes c snapshots w))
    = volumes.
Proof.
  revert snapshots w. induction volumes as [|volume rest IH]; intros snapshots w.
  - done.
  - cbn [for_volume_in]. rewrite result_bind, trace_bind.
    destruct (result (snapshot_volume volume c snapshots w)) as [mid|e] eqn:Hpass;
      [|done].
    intros Hrest. apply IH in Hrest as [Hd Hc].
    apply snapshot_volume_attempt in Hpass as [Hd1 Hc1].
    by rewrite !omap_app, Hd, Hc, Hd1, Hc1.
Qed.

(** X5: when [create_snapshots_from_vols] returns, every volume of the input
    was attempted exactly once and in the order of the input: the volumes of
    the describe-volumes requests of the run, and those of its
    create-snapshot requests, are the input list itself. *)
Theorem every_volume_is_attempted_once (volumes out : list pyval) c w :
  result (create_snapshots_from_vols volumes c w) = Ok out ->
  let t := trace (create_snapshots_from_vols volumes c w) in
  omap description_requested t = volumes /\ omap creation_requested t = volumes.
Proof.
  destruct volumes as [|volume rest]; [done|].
  rewrite create_snapshots_from_vols_cons, result_bind, trace_bind.
  cbn [print result trace final]. intros Hloop.
  apply for_volume_in_attempts in Hloop as [Hd Hc].
  split; [exact Hd|exact Hc].
Qed.

Lemma snapshot_volume_lines (volume : pyval) c (snapshots : list pyval) w :
  lines (trace (snapshot_volume volume c snapshots w))
  = success_line <$> omap created (trace (snapshot_volume volume c snapshots w)).
Proof.
  run_unfold.
  repeat run_step; unfold created;
    rewrite ?Hkey, ?Hkey0, ?Hkey1, ?Hstatus; done.
Qed.

Lemma for_volume_in_lines (volumes : list pyval) c (snapshots : list pyval) w :
  lines (trace (for_volume_in volumes c snapshots w))
  = success_line <$> omap created (trace (for_volume_in volumes c snapshots w)).
Proof.
  revert snapshots w. induction volumes as [|volume rest IH]; intros snapshots w.
  - done.
  - cbn [for_volume_in]. rewrite trace_bind. unfold lines in *.
    rewrite !omap_app, fmap_app. f_equal; [apply snapshot_volume_lines|].
    destruct (result _); [apply IH|done].
Qed.

(** X6: what [create_snapshots_from_vols] prints on a non-empty list is the
    count of its volumes followed by one success line for each creation that
    succeeded, in the order of the run, and nothing else, whether it returns
    or raises: a volume that failed leaves no line. *)
Theorem creation_log_lists_the_successes (volumes : list pyval) c w :
  volumes <> [] ->
  let t := trace (create_snapshots_from_vols volumes c w) in
  lines t = count_line (length volumes) :: (success_line <$> omap created t).
Proof.
  intros Hne. destruct volumes as [|volume rest]; [done|].
  rewrite create_snapshots_from_vols_cons, trace_bind.
  cbn [print result trace final]. cbn zeta.
  pose proof (for_volume_in_lines (volume :: rest) c [] w) as Hlines.
  unfold lines in *. rewrite !omap_app, fmap_app, <- Hlines. done.
Qed.

End CreationTraces.

(** ** More on the replication phase *)

Section MoreReplication.

Context {World : Type}.

Implicit Types (w : World) (c sc dc : ec2_client World) (sr dr : string)
  (t : list event).

(** The run of [copy_snapshot_to_dest_region] on a list cut at one snapshot,
    by the way the pass of that snapshot ends. *)
Lemma replication_run_continues (done_ rest : list pyval) (snapshot : pyval)
    sc dc sr dr w t w2 :
  result (for_snapshot_in done_ sc dc sr dr w) = Ok Next ->
  replicate_snapshot snapshot sc dc sr dr
    (final (for_snapshot_in done_ sc dc sr dr w)) = Run t w2 (Ok Next) ->
  copy_snapshot_to_dest_region (done_ ++ snapshot :: rest) sc dc sr dr w
  = Run (EvPrint (found_line (length (done_ ++ snapshot :: rest)) sr dr)
         :: trace (for_snapshot_in done_ sc dc sr dr w) ++ t
         ++ trace (for_snapshot_in rest sc dc sr dr w2))
      (final (for_snapshot_in rest sc dc sr dr w2))
      (match result (for_snapshot_in rest sc dc sr dr w2) with
       | Ok _ => Ok tt
       | Raise e => Raise e
       end).
Proof.
  intros Hbefore Hpass.
  assert (Hloop :
    for_snapshot_in (done_ ++ snapshot :: rest) sc dc sr dr w
    = Run (trace (for_snapshot_in done_ sc dc sr dr w) ++ t
           ++ trace (for_snapshot_in rest sc dc sr dr w2))
        (final (for_snapshot_in rest sc dc sr dr w2))
        (result (for_snapshot_in rest sc dc sr dr w2))).
  { rewrite for_snapshot_in_app.
    erewrite bind_ok by (by apply run_of_result).
    cbn [for_snapshot_in]. erewrite bind_ok by exact Hpass. done. }
  unfold copy_snapshot_to_dest_region. erewrite bind_ok by done.
  destruct (result (for_snapshot_in rest sc dc sr dr w2)) as [after|e].
  - erewrite bind_ok by exact Hloop. cbn. by rewrite !app_nil_r.
  - erewrite bind_raise by exact Hloop. done.
Qed.

Lemma replication_run_returns (done_ rest : list pyval) (snapshot : pyval)
    sc dc sr dr w t w2 :
  result (for_snapshot_in done_ sc dc sr dr w) = Ok Next ->
  replicate_snapshot snapshot sc dc sr dr
    (final (for_snapshot_in done_ sc dc sr dr w)) = Run t w2 (Ok Return) ->
  copy_snapshot_to_dest_region (done_ ++ snapshot :: rest) sc dc sr dr w
  = Run (EvPrint (found_line (length (done_ ++ snapshot :: rest)) sr dr)
         :: trace (for_snapshot_in done_ sc dc sr dr w) ++ t)
      w2 (Ok tt).
Proof.
  intros Hbefore Hpass. unfold copy_snapshot_to_dest_region.
  erewrite bind_ok by done. erewrite bind_ok; cycle 1.
  { rewrite for_snapshot_in_app.
    erewrite bind_ok by (by apply run_of_result).
    cbn [for_snapshot_in]. erewrite bind_ok by exact Hpass. done. }
  cbn. by rewrite !app_nil_r.
Qed.

Lemma replication_run_raises (done_ rest : list pyval) (snapshot : pyval)
    sc dc sr dr w t w2 e :
  result (for_snapshot_in done_ sc dc sr dr w) = Ok Next ->
  replicate_snapshot snapshot sc dc sr dr
    (final (for_snapshot_in done_ sc dc sr dr w)) = Run t w2 (Raise e) ->
  copy_snapshot_to_dest_region (done_ ++ snapshot :: rest) sc dc sr dr w
  = Run (EvPrint (found_line (length (done_ ++ snapshot :: rest)) sr dr)
         :: trace (for_snapshot_in done_ sc dc sr dr w) ++ t)
      w2 (Raise e).
Proof.
  intros Hbefore Hpass. unfold copy_snapshot_to_dest_region.
  erewrite bind_ok by done. erewrite bind_raise; [done|].
  rewrite for_snapshot_in_app.
  erewrite bind_ok by (by apply run_of_result).
  cbn [for_snapshot_in]. erewrite bind_raise by exact Hpass. done.
Qed.

(** Subscripting raises [KeyError], [IndexError] or [TypeError], never a
    [ClientError]. *)
Lemma getitem_key_no_client_error (d : pyval) (k : string) (e : exn) :
  getitem_key d k = Raise e -> isinstance e ClientErrorC = false.
Proof.
  destruct d as [|n|s|xs|kvs]; cbn; try by intros [= <-].
  destruct (assoc k kvs); [done|]. by intros [= <-].
Qed.

Lemma first_tags_no_client_error (d : pyval) (k : string) (e : exn) :
  first_tags d k = Raise e -> isinstance e ClientErrorC = false.
Proof.
  unfold first_tags.
  destruct (getitem_key d k) as [described|e'] eqn:Hk.
  - destruct (getitem_0 described) as [entity|e'] eqn:H0.
    + apply getitem_key_no_client_error.
    + intros [= <-].
      destruct described as [|n|[|a s]|[|x xs]|kvs]; cbn in H0;
        by inversion H0.
  - intros [= <-]. by eapply getitem_key_no_client_error.
Qed.

Lemma replicate_snapshot_copied (snapshot : pyval) sc dc sr dr w
    waited_ w1 described w2 tags copied_ w3 new_snapshot :
  invoke sc (WaitSnapshotCompleted [snapshot] SNAPSHOT_WAITER) w = (Ok waited_, w1) ->
  invoke sc (DescribeSnapshots [snapshot]) w1 = (Ok described, w2) ->
  first_tags described "Snapshots" = Ok tags ->
  invoke dc (CopySnapshot snapshot sr dr (tag_specifications tags)) w2
    = (Ok copied_, w3) ->
  getitem_key copied_ "SnapshotId" = Ok new_snapshot ->
  replicate_snapshot snapshot sc dc sr dr w
  = Run [EvPrint (waiting_line snapshot);
         EvCall (region_name sc)
           (WaitSnapshotCompleted [snapshot] SNAPSHOT_WAITER) (Ok waited_);
         EvCall (region_name sc) (DescribeSnapshots [snapshot]) (Ok described);
         EvCall (region_name dc)
           (CopySnapshot snapshot sr dr (tag_specifications tags)) (Ok copied_);
         EvPrint (created_copy_line new_snapshot snapshot sr dr)]
      w3 (Ok Next).
Proof.
  intros Hwait Hd Ht Hcopy Hid. run_unfold.
  rewrite Hwait; run_simpl. rewrite Hd; run_simpl. rewrite Ht; run_simpl.
  rewrite Hcopy; run_simpl. by rewrite Hid.
Qed.

Lemma replicate_snapshot_untagged (snapshot : pyval) sc dc sr dr w
    waited_ w1 described w2 e :
  invoke sc (WaitSnapshotCompleted [snapshot] SNAPSHOT_WAITER) w = (Ok waited_, w1) ->
  invoke sc (DescribeSnapshots [snapshot]) w1 = (Ok described, w2) ->
  first_tags described "Snapshots" = Raise e ->
  replicate_snapshot snapshot sc dc sr dr w
  = Run [EvPrint (waiting_line snapshot);
         EvCall (region_name sc)
           (WaitSnapshotCompleted [snapshot] SNAPSHOT_WAITER) (Ok waited_);
         EvCall (region_name sc) (DescribeSnapshots [snapshot]) (Ok described)]
      w2 (Raise e).
Proof.
  intros Hwait Hd Ht. pose proof (first_tags_no_client_error _ _ _ Ht) as He.
  run_unfold. rewrite Hwait; run_simpl. rewrite Hd; run_simpl.
  rewrite Ht; run_simpl. by rewrite He.
Qed.

Lemma replicate_snapshot_description_rejected (snapshot : pyval) sc dc sr dr w
    waited_ w1 e w2 :
  invoke sc (WaitSnapshotCompleted [snapshot] SNAPSHOT_WAITER) w = (Ok waited_, w1) ->
  invoke sc (DescribeSnapshots [snapshot]) w1 = (Raise e, w2) ->
  isinstance e ClientErrorC = true ->
  replicate_snapshot snapshot sc dc sr dr w
  = Run [EvPrint (waiting_line snapshot);
         EvCall (region_name sc)
           (WaitSnapshotCompleted [snapshot] SNAPSHOT_WAITER) (Ok waited_);
         EvCall (region_name sc) (DescribeSnapshots [snapshot]) (Raise e);
         EvPrint (failed_copy_line snapshot e)]
      w2 (Ok Return).
Proof.
  intros Hwait Hd He. run_unfold.
  rewrite Hwait; run_simpl. rewrite Hd; run_simpl. by rewrite He.
Qed.

Lemma replicate_snapshot_wait_raises (snapshot : pyval) sc dc sr dr w e w1 :
  invoke sc (WaitSnapshotCompleted [snapshot] SNAPSHOT_WAITER) w = (Raise e, w1) ->
  isinstance e WaiterErrorC = false ->
  replicate_snapshot snapshot sc dc sr dr w
  = Run [EvPrint (waiting_line snapshot);
         EvCall (region_name sc)
           (WaitSnapshotCompleted [snapshot] SNAPSHOT_WAITER) (Raise e)]
      w1 (Raise e).
Proof.
  intros Hwait He. run_unfold. rewrite Hwait; run_simpl. by rewrite He.
Qed.

End MoreReplication.

Section ReplicationTraces.

Context {World : Type}.

Implicit Types (w : World) (c sc dc : ec2_client World) (sr dr : string)
  (t : list event).

Lemma copy_snapshot_to_dest_region_trace (snapshots : list pyval) sc dc sr dr w :
  trace (copy_snapshot_to_dest_region snapshots sc dc sr dr w)
  = EvPrint (found_line (length snapshots) sr dr)
    :: trace (for_snapshot_in snapshots sc dc sr dr w).
Proof.
  unfold copy_snapshot_to_dest_region. rewrite !trace_bind.
  cbn [print result trace final app]. f_equal.
  destruct (result _); cbn; by rewrite app_nil_r.
Qed.

Lemma copy_snapshot_to_dest_region_result (snapshots : list pyval) sc dc sr dr w :
  result (copy_snapshot_to_dest_region snapshots sc dc sr dr w)
  = match result (for_snapshot_in snapshots sc dc sr dr w) with
    | Ok _ => Ok tt
    | Raise e => Raise e
    end.
Proof.
  unfold copy_snapshot_to_dest_region. rewrite !result_bind.
  cbn [print result trace final]. by destruct (result _).
Qed.

Lemma replication_event_for_mono (source dest sr dr : string)
    (ss ss' : list pyval) (ev : event) :
  ss ⊆ ss' ->
  replication_event_for source dest sr dr ss ev ->
  replication_event_for source dest sr dr ss' ev.
Proof.
  intros Hsub.
  destruct ev as [r [ids|v spec|[|s [|]] n|[|s [|]]|s sr' dr' spec] resp|line];
    cbn; try done.
  - intros (-> & -> & Hin). repeat split. by apply Hsub.
  - intros (-> & Hin). repeat split. by apply Hsub.
  - intros (-> & -> & -> & Hin). repeat split. by apply Hsub.
Qed.

Lemma replicate_snapshot_requests (snapshot : pyval) sc dc sr dr w :
  Forall (replication_event_for (region_name sc) (region_name dc) sr dr [snapshot])
    (trace (replicate_snapshot snapshot sc dc sr dr w)).
Proof.
  run_unfold.
  repeat run_step; repeat constructor; by apply list_elem_of_singleton.
Qed.

Lemma for_snapshot_in_requests (snapshots : list pyval) sc dc sr dr w :
  Forall (replication_event_for (region_name sc) (region_name dc) sr dr snapshots)
    (trace (for_snapshot_in snapshots sc dc sr dr w)).
Proof.
  revert w. induction snapshots as [|snapshot rest IH]; intros w.
  - constructor.
  - cbn [for_snapshot_in]. rewrite trace_bind. apply Forall_app. split.
    + eapply Forall_impl; [apply replicate_snapshot_requests|].
      intros ev. apply replication_event_for_mono.
      intros s Hs. apply list_elem_of_singleton in Hs as ->. by left.
    + destruct (result _) as [[|]|]; [|constructor|constructor].
      eapply Forall_impl; [apply IH|].
      intros ev. apply replication_event_for_mono.
      intros s Hs. by right.
Qed.

(** X11: whatever the answers of the service, [copy_snapshot_to_dest_region]
    sends only three kinds of requests, each for one snapshot of its input:
    waits with at most [SNAPSHOT_WAITER] attempts and describe-snapshots
    requests through the source client, and copy requests through the
    destination client, from the source region to the destination region it
    was given.  It creates no snapshot and describes no volume. *)
Theorem replication_requests_are_well_formed (snapshots : list pyval)
    sc dc sr dr w :
  Forall (replication_event_for (region_name sc) (region_name dc) sr dr snapshots)
    (trace (copy_snapshot_to_dest_region snapshots sc dc sr dr w)).
Proof.
  rewrite copy_snapshot_to_dest_region_trace. constructor; [done|].
  apply for_snapshot_in_requests.
Qed.

(** A pass always waits for its snapshot; it copies it, or else it does not
    go on to the next snapshot. *)
Lemma replicate_snapshot_progress (snapshot : pyval) sc dc sr dr w :
  let r := replicate_snapshot snapshot sc dc sr dr w in
  omap waited (trace r) = [snapshot]
  /\ (omap copied (trace r) = [snapshot]
      \/ omap copied (trace r) = [] /\ result r <> Ok Next).
Proof.
  run_unfold.
  repeat run_step; (split; [done|]); first [by left | by right].
Qed.

Lemma for_snapshot_in_order (snapshots : list pyval) sc dc sr dr w :
  let r := for_snapshot_in snapshots sc dc sr dr w in
  omap waited (trace r) `prefix_of` snapshots
  /\ omap copied (trace r) `prefix_of` omap waited (trace r)
  /\ (result r = Ok Next ->
      omap waited (trace r) = snapshots /\ omap copied (trace r) = snapshots).
Proof.
  revert w. induction snapshots as [|snapshot rest IH]; intros w.
  - done.
  - cbn zeta. cbn [for_snapshot_in]. rewrite result_bind, trace_bind, !omap_app.
    destruct (replicate_snapshot_progress snapshot sc dc sr dr w)
      as [Hwait Hcopy]. cbn zeta in Hwait, Hcopy. rewrite Hwait.
    destruct (result (replicate_snapshot snapshot sc dc sr dr w))
      as [[|]|e] eqn:Hpass.
    + destruct Hcopy as [Hcopy|[_ Hcopy]]; [|done]. rewrite Hcopy.
      destruct (IH (final (replicate_snapshot snapshot sc dc sr dr w)))
        as (Hw & Hc & Hall).
      split; [by apply prefix_cons|]. split; [by apply prefix_cons|].
      intros Hnext. destruct (Hall Hnext) as [-> ->]. done.
    + cbn [omap]. rewrite !app_nil_r. split; [by apply prefix_cons, prefix_nil|].
      split; [|done].
      destruct Hcopy as [->|[-> _]]; [done|apply prefix_nil].
    + cbn [omap]. rewrite !app_nil_r. split; [by apply prefix_cons, prefix_nil|].
      split; [|done].
      destruct Hcopy as [->|[-> _]]; [done|apply prefix_nil].
Qed.

(** X12: snapshots are replicated in the order of the input and none is
    skipped: in every run of [copy_snapshot_to_dest_region], the snapshots
    waited for are a prefix of the input list, and the snapshots of the copy
    requests are a prefix of the snapshots waited for. *)
Theorem snapshots_are_replicated_in_order (snapshots : list pyval) sc dc sr dr w :
  let t := trace (copy_snapshot_to_dest_region snapshots sc dc sr dr w) in
  omap waited t `prefix_of` snapshots
  /\ omap copied t `prefix_of` omap waited t.
Proof.
  cbn zeta. rewrite copy_snapshot_to_dest_region_trace.
  destruct (for_snapshot_in_order snapshots sc dc sr dr w) as (Hw & Hc & _).
  done.
Qed.

(** X13: when the loop of [copy_snapshot_to_dest_region] runs to the end of
    the list, the function returns normally, and it has waited for every
    snapshot of the input and sent a copy request for every one of them,
    once each and in the order of the input. *)
Theorem complete_replication_copies_every_snapshot (snapshots : list pyval)
    sc dc sr dr w :
  result (for_snapshot_in snapshots sc dc sr dr w) = Ok Next ->
  let r := copy_snapshot_to_dest_region snapshots sc dc sr dr w in
  result r = Ok tt
  /\ omap waited (trace r) = snapshots
  /\ omap copied (trace r) = snapshots.
Proof.
  intros Hnext. cbn zeta.
  rewrite copy_snapshot_to_dest_region_result, copy_snapshot_to_dest_region_trace,
    Hnext.
  destruct (for_snapshot_in_order snapshots sc dc sr dr w) as (_ & _ & Hall).
  destruct (Hall Hnext) as [Hw Hc]. done.
Qed.

End ReplicationTraces.

Section ReplicationPasses.

Context {World : Type}.

Implicit Types (w : World) (c sc dc : ec2_client World) (sr dr : string)
  (t : list event).

(** X7: a snapshot that becomes available, has tags and whose copy request
    is answered with a snapshot id is copied with these tags; the line naming
    the copy, its region and its source is printed, and replication goes on
    with the snapshots after it. *)
Theorem successful_copy_goes_on (done_ rest : list pyval) (snapshot : pyval)
    sc dc sr dr w waited_ w1 described w2 tags copied_ w3 new_snapshot :
  let before := for_snapshot_in done_ sc dc sr dr w in
  result before = Ok Next ->
  invoke sc (WaitSnapshotCompleted [snapshot] 10) (final before) = (Ok waited_, w1) ->
  invoke sc (DescribeSnapshots [snapshot]) w1 = (Ok described, w2) ->
  first_tags described "Snapshots" = Ok tags ->
  invoke dc (CopySnapshot snapshot sr dr (tag_specifications tags)) w2
    = (Ok copied_, w3) ->
  getitem_key copied_ "SnapshotId" = Ok new_snapshot ->
  let after := for_snapshot_in rest sc dc sr dr w3 in
  copy_snapshot_to_dest_region (done_ ++ snapshot :: rest) sc dc sr dr w
  = Run (EvPrint (found_line (length (done_ ++ snapshot :: rest)) sr dr)
         :: trace before
         ++ [EvPrint (waiting_line snapshot);
             EvCall (region_name sc) (WaitSnapshotCompleted [snapshot] 10)
               (Ok waited_);
             EvCall (region_name sc) (DescribeSnapshots [snapshot]) (Ok described);
             EvCall (region_name dc)
               (CopySnapshot snapshot sr dr (tag_specifications tags))
               (Ok copied_);
             EvPrint (created_copy_line new_snapshot snapshot sr dr)]
         ++ trace after)
      (final after)
      (match result after with Ok _ => Ok tt | Raise e => Raise e end).
Proof.
  intros before Hbefore Hwait Hd Ht Hcopy Hid after.
  eapply replication_run_continues; [done|].
  by eapply replicate_snapshot_copied.
Qed.

(** X8: a snapshot whose description has no tags to read stops the
    replication with an exception: the [KeyError], [IndexError] or
    [TypeError] of the subscript is not a [ClientError], so it leaves
    [copy_snapshot_to_dest_region]; no copy request is sent for the snapshot
    and nothing is done for the snapshots after it. *)
Theorem untagged_snapshot_stops_replication (done_ rest : list pyval)
    (snapshot : pyval) sc dc sr dr w waited_ w1 described w2 e :
  let before := for_snapshot_in done_ sc dc sr dr w in
  result before = Ok Next ->
  invoke sc (WaitSnapshotCompleted [snapshot] 10) (final before) = (Ok waited_, w1) ->
  invoke sc (DescribeSnapshots [snapshot]) w1 = (Ok described, w2) ->
  first_tags described "Snapshots" = Raise e ->
  copy_snapshot_to_dest_region (done_ ++ snapshot :: rest) sc dc sr dr w
  = Run (EvPrint (found_line (length (done_ ++ snapshot :: rest)) sr dr)
         :: trace before
         ++ [EvPrint (waiting_line snapshot);
             EvCall (region_name sc) (WaitSnapshotCompleted [snapshot] 10)
               (Ok waited_);
             EvCall (region_name sc) (DescribeSnapshots [snapshot]) (Ok described)])
      w2 (Raise e).
Proof.
  intros before Hbefore Hwait Hd Ht.
  eapply replication_run_raises; [done|].
  by eapply replicate_snapshot_untagged.
Qed.

(** X9: a [ClientError] of the describe-snapshots request is handled like a
    rejected copy: the line "failed to make copy of" with the snapshot and
    the text of the error is printed, no copy request is sent and the
    function returns without looking at the snapshots after it. *)
Theorem rejected_description_ends_replication (done_ rest : list pyval)
    (snapshot : pyval) sc dc sr dr w waited_ w1 e w2 :
  let before := for_snapshot_in done_ sc dc sr dr w in
  result before = Ok Next ->
  invoke sc (WaitSnapshotCompleted [snapshot] 10) (final before) = (Ok waited_, w1) ->
  invoke sc (DescribeSnapshots [snapshot]) w1 = (Raise e, w2) ->
  isinstance e ClientErrorC = true ->
  copy_snapshot_to_dest_region (done_ ++ snapshot :: rest) sc dc sr dr w
  = Run (EvPrint (found_line (length (done_ ++ snapshot :: rest)) sr dr)
         :: trace before
         ++ [EvPrint (waiting_line snapshot);
             EvCall (region_name sc) (WaitSnapshotCompleted [snapshot] 10)
               (Ok waited_);
             EvCall (region_name sc) (DescribeSnapshots [snapshot]) (Raise e);
             EvPrint (failed_copy_line snapshot e)])
      w2 (Ok tt).
Proof.
  intros before Hbefore Hwait Hd He.
  eapply replication_run_returns; [done|].
  by eapply replicate_snapshot_description_rejected.
Qed.

(** X10: an exception of the wait that is not a [WaiterError] leaves
    [copy_snapshot_to_dest_region] as it is, without the line "is not
    available to copy": only a [WaiterError] is reported. *)
Theorem other_wait_failure_is_not_reported (done_ rest : list pyval)
    (snapshot : pyval) sc dc sr dr w e w1 :
  let before := for_snapshot_in done_ sc dc sr dr w in
  result before = Ok Next ->
  invoke sc (WaitSnapshotCompleted [snapshot] 10) (final before) = (Raise e, w1) ->
  isinstance e WaiterErrorC = false ->
  copy_snapshot_to_dest_region (done_ ++ snapshot :: rest) sc dc sr dr w
  = Run (EvPrint (found_line (length (done_ ++ snapshot :: rest)) sr dr)
         :: trace before
         ++ [EvPrint (waiting_line snapshot);
             EvCall (region_name sc) (WaitSnapshotCompleted [snapshot] 10)
               (Raise e)])
      w1 (Raise e).
Proof.
  intros before Hbefore Hwait He.
  eapply replication_run_raises; [done|].
  by eapply replicate_snapshot_wait_raises.
Qed.

End ReplicationPasses.

(** ** More on the driver *)

Section MoreDriver.

Context {World : Type}.
Context (json_load : string -> World -> outcome pyval).
Context (boto3_client : string -> outcome (ec2_client World)).

Implicit Types (w : World) (c sc dc : ec2_client World).

Lemma bind_lift {A B} (o : outcome A) (k : A -> M World B) w :
  bind (lift o) k w
  = match o with Ok a => k a w | Raise e => Run [] w (Raise e) end.
Proof. unfold bind, lift. destruct o as [a|e]; [|done]. by destruct (k a w). Qed.

Lemma main_reads (file source_region dest_region : string) w :
  main json_load boto3_client file source_region dest_region w
  = bind (lift (read_volumes json_load file w))
      (fun volumes =>
         bind (lift (boto3_client source_region))
           (fun source_client =>
              bind (create_snapshots_from_vols volumes source_client)
                (fun snapshots =>
                   if negb (String.eqb dest_region "") then
                     bind (lift (boto3_client dest_region))
                       (fun dest_client =>
                          copy_snapshot_to_dest_region snapshots source_client
                            dest_client source_region dest_region)
                   else ret tt))) w.
Proof.
  unfold main, read_volumes.
  change (bind (fun w' => lift (json_load file w') w') ?k w)
    with (bind (lift (json_load file w)) k w).
  destruct (json_load file w) as [json_data|e]; [|by rewrite !bind_lift].
  rewrite bind_lift.
  destruct (getitem_key json_data "volumes") as [listed|e];
    [|by rewrite !bind_lift].
  by rewrite bind_lift.
Qed.

(** X14: when the input file cannot be loaded, has no [volumes] key or
    holds something that cannot be iterated there, or when the source client
    cannot be built, [main] raises that exception before any request is sent
    and before any line is printed. *)
Theorem main_fails_before_any_request (file source_region dest_region : string)
    w e :
  read_volumes json_load file w = Raise e
  \/ (exists volumes, read_volumes json_load file w = Ok volumes)
     /\ boto3_client source_region = Raise e ->
  main json_load boto3_client file source_region dest_region w
  = Run [] w (Raise e).
Proof.
  intros Hfail. rewrite main_reads.
  destruct Hfail as [Hread|[[volumes Hread] Hclient]];
    rewrite Hread, bind_lift; [done|].
  by rewrite Hclient, bind_lift.
Qed.

(** X15: with a destination region, [main] is the creation phase followed by
    the replication phase: the snapshots returned by the creation phase are
    replicated in the state of the cloud that phase left, through the client
    used for the creation and a client of the destination region, and the
    outcome of [main] is the outcome of the replication. *)
Theorem main_replicates_what_it_created (file source_region dest_region : string)
    w (volumes snapshots : list pyval) sc dc :
  read_volumes json_load file w = Ok volumes ->
  boto3_client source_region = Ok sc ->
  dest_region <> "" ->
  boto3_client dest_region = Ok dc ->
  let creation := create_snapshots_from_vols volumes sc w in
  result creation = Ok snapshots ->
  let replication :=
    copy_snapshot_to_dest_region snapshots sc dc source_region dest_region
      (final creation) in
  main json_load boto3_client file source_region dest_region w
  = Run (trace creation ++ trace replication) (final replication)
      (result replication).
Proof.
  intros Hread Hsc Hne Hdc creation Hcreated replication.
  rewrite main_reads, Hread, bind_lift, Hsc, bind_lift.
  erewrite bind_ok by (by apply run_of_result).
  apply String.eqb_neq in Hne. rewrite Hne. cbn [negb].
  rewrite Hdc, bind_lift. done.
Qed.

(** X16: when the creation phase raises, [main] raises the same exception
    and stops there, with or without a destination region: nothing is
    replicated, not even the snapshots created before the failure. *)
Theorem main_stops_when_creation_raises (file source_region dest_region : string)
    w (volumes : list pyval) sc e :
  read_volumes json_load file w = Ok volumes ->
  boto3_client source_region = Ok sc ->
  let creation := create_snapshots_from_vols volumes sc w in
  result creation = Raise e ->
  main json_load boto3_client file source_region dest_region w
  = Run (trace creation) (final creation) (Raise e).
Proof.
  intros Hread Hsc creation Hraised.
  rewrite main_reads, Hread, bind_lift, Hsc, bind_lift.
  by erewrite bind_raise by (by apply run_of_result).
Qed.

End MoreDriver.

(** ** The extra properties on the small cloud *)

Lemma rejected_creation_is_skipped_witness :
  let r := create_snapshots_from_vols
             (Demo.vols ["vol-a"] ++ PStr "vol-b" :: Demo.vols ["vol-c"])
             Demo.west [] in
  result r = Ok [PStr "snap-vol-a"; PStr "snap-vol-c"]
  /\ length (lines (trace r)) = 3%nat.
Proof.
  cbv zeta.
  rewrite (rejected_creation_is_skipped
             (Demo.vols ["vol-a"]) (Demo.vols ["vol-c"]) "vol-b" Demo.west []
             [PStr "snap-vol-a"] _ _ _
             (Exn ClientErrorC "SnapshotCreationPerVolumeRateExceeded") _
             eq_refl eq_refl eq_refl eq_refl eq_refl).
  split; reflexivity.
Defined.

Lemma successful_creation_is_appended_witness :
  let r := create_snapshots_from_vols
             (Demo.vols ["vol-a"] ++ PStr "vol-c" :: Demo.vols ["vol-d"])
             Demo.west [] in
  result r = Ok [PStr "snap-vol-a"; PStr "snap-vol-c"]
  /\ last (lines (trace r))
     = Some (success_line (PStr "vol-c", PStr "snap-vol-c")).
Proof.
  cbv zeta.
  rewrite (successful_creation_is_appended
             (Demo.vols ["vol-a"]) (Demo.vols ["vol-d"]) (PStr "vol-c")
             Demo.west [] [PStr "snap-vol-a"] _ _ _ _ _ _ (PInt 200)
             (PStr "snap-vol-c")
             eq_refl eq_refl eq_refl eq_refl eq_refl eq_refl eq_refl eq_refl).
  split; reflexivity.
Defined.

Lemma failed_tag_fetch_leaves_the_loop_witness :
  let r := create_snapshots_from_vols
             (Demo.vols ["vol-a"] ++ PStr "vol-u" :: Demo.vols ["vol-c"])
             Demo.west [] in
  result r = Raise (Exn KeyErrorC "'Tags'")
  /\ omap creation_requested (trace r) = [PStr "vol-a"].
Proof.
  cbv zeta.
  rewrite (failed_tag_fetch_leaves_the_loop
             (Demo.vols ["vol-a"]) (Demo.vols ["vol-c"]) (PStr "vol-u")
             Demo.west [] [PStr "snap-vol-a"] _ _ (Exn KeyErrorC "'Tags'")
             eq_refl eq_refl eq_refl).
  split; reflexivity.
Defined.

Lemma every_volume_is_attempted_once_witness :
  let volumes := Demo.vols ["vol-a"; "vol-b"; "vol-d"; "vol-c"] in
  let t := trace (create_snapshots_from_vols volumes Demo.west []) in
  omap description_requested t = volumes /\ omap creation_requested t = volumes.
Proof.
  apply (every_volume_is_attempted_once
           (Demo.vols ["vol-a"; "vol-b"; "vol-d"; "vol-c"])
           [PStr "snap-vol-a"; PStr "snap-vol-c"] Demo.west []).
  reflexivity.
Defined.

Lemma creation_log_lists_the_successes_witness :
  let volumes := Demo.vols ["vol-a"; "vol-b"; "vol-u"; "vol-c"] in
  let t := trace (create_snapshots_from_vols volumes Demo.west []) in
  lines t = count_line 4 :: (success_line <$> omap created t)
  /\ omap created t = [(PStr "vol-a", PStr "snap-vol-a")].
Proof.
  split; [|reflexivity].
  apply (creation_log_lists_the_successes
           (Demo.vols ["vol-a"; "vol-b"; "vol-u"; "vol-c"]) Demo.west []).
  discriminate.
Defined.

Lemma successful_copy_goes_on_witness :
  let r := copy_snapshot_to_dest_region
             ([] ++ PStr "snap-vol-a" :: Demo.vols ["snap-vol-c"])
             Demo.west Demo.east "us-west-2" "us-east-1"
             (Demo.snapped ["vol-a"; "vol-c"]) in
  result r = Ok tt
  /\ omap copied (trace r) = Demo.vols ["snap-vol-a"; "snap-vol-c"].
Proof.
  cbv zeta.
  rewrite (successful_copy_goes_on
             [] (Demo.vols ["snap-vol-c"]) (PStr "snap-vol-a")
             Demo.west Demo.east "us-west-2" "us-east-1"
             (Demo.snapped ["vol-a"; "vol-c"])
             _ _ _ _ _ _ _ (PStr "copy-snap-vol-a")
             eq_refl eq_refl eq_refl eq_refl eq_refl eq_refl).
  split; reflexivity.
Defined.

Lemma untagged_snapshot_stops_replication_witness :
  let r := copy_snapshot_to_dest_region
             ([] ++ PStr "snap-vol-a" :: Demo.vols ["snap-vol-c"])
             DemoMore.bare_west Demo.east "us-west-2" "us-east-1"
             (Demo.snapped ["vol-a"; "vol-c"]) in
  result r = Raise (Exn KeyErrorC "'Tags'") /\ omap copied (trace r) = [].
Proof.
  cbv zeta.
  rewrite (untagged_snapshot_stops_replication
             [] (Demo.vols ["snap-vol-c"]) (PStr "snap-vol-a")
             DemoMore.bare_west Demo.east "us-west-2" "us-east-1"
             (Demo.snapped ["vol-a"; "vol-c"])
             _ _ _ _ (Exn KeyErrorC "'Tags'")
             eq_refl eq_refl eq_refl eq_refl).
  split; reflexivity.
Defined.

Lemma rejected_description_ends_replication_witness :
  let r := copy_snapshot_to_dest_region
             (Demo.vols ["snap-vol-a"] ++ PStr "snap-gone"
                :: Demo.vols ["snap-vol-c"])
             Demo.west Demo.east "us-west-2" "us-east-1"
             (Demo.snapped ["vol-a"; "vol-c"]) in
  result r = Ok tt
  /\ omap copied (trace r) = Demo.vols ["snap-vol-a"]
  /\ last (lines (trace r))
     = Some (failed_copy_line (PStr "snap-gone")
               (Exn ClientErrorC "InvalidSnapshot.NotFound")).
Proof.
  cbv zeta.
  rewrite (rejected_description_ends_replication
             (Demo.vols ["snap-vol-a"]) (Demo.vols ["snap-vol-c"])
             (PStr "snap-gone")
             Demo.west Demo.east "us-west-2" "us-east-1"
             (Demo.snapped ["vol-a"; "vol-c"])
             _ _ (Exn ClientErrorC "InvalidSnapshot.NotFound") _
             eq_refl eq_refl eq_refl eq_refl).
  repeat split; reflexivity.
Defined.

Lemma other_wait_failure_is_not_reported_witness :
  let r := copy_snapshot_to_dest_region
             ([] ++ PStr "snap-vol-a" :: Demo.vols ["snap-vol-c"])
             DemoMore.offline_west Demo.east "us-west-2" "us-east-1"
             (Demo.snapped ["vol-a"; "vol-c"]) in
  result r = Raise DemoMore.unreachable
  /\ lines (trace r)
     = [found_line 2 "us-west-2" "us-east-1"; waiting_line (PStr "snap-vol-a")].
Proof.
  cbv zeta.
  rewrite (other_wait_failure_is_not_reported
             [] (Demo.vols ["snap-vol-c"]) (PStr "snap-vol-a")
             DemoMore.offline_west Demo.east "us-west-2" "us-east-1"
             (Demo.snapped ["vol-a"; "vol-c"])
             DemoMore.unreachable _ eq_refl eq_refl eq_refl).
  split; reflexivity.
Defined.

Lemma complete_replication_copies_every_snapshot_witness :
  let snapshots := Demo.vols ["snap-vol-a"; "snap-vol-c"] in
  let r := copy_snapshot_to_dest_region snapshots Demo.west Demo.east
             "us-west-2" "us-east-1" (Demo.snapped ["vol-a"; "vol-c"]) in
  result r = Ok tt
  /\ omap waited (trace r) = snapshots
  /\ omap copied (trace r) = snapshots.
Proof.
  apply (complete_replication_copies_every_snapshot
           (Demo.vols ["snap-vol-a"; "snap-vol-c"]) Demo.west Demo.east
           "us-west-2" "us-east-1" (Demo.snapped ["vol-a"; "vol-c"])).
  reflexivity.
Defined.

Lemma main_fails_before_any_request_witness :
  main DemoMore.json_load Demo.boto3_client "no-volumes.json" "us-west-2"
    "us-east-1" []
  = Run [] [] (Raise (Exn KeyErrorC "'volumes'")).
Proof.
  apply (main_fails_before_any_request DemoMore.json_load Demo.boto3_client
           "no-volumes.json" "us-west-2" "us-east-1" []
           (Exn KeyErrorC "'volumes'")).
  left. reflexivity.
Defined.

Lemma main_replicates_what_it_created_witness :
  let r := main Demo.json_load Demo.boto3_client "volumes.json" "us-west-2"
             "us-east-1" [] in
  result r = Ok tt
  /\ omap created (trace r)
     = [(PStr "vol-a", PStr "snap-vol-a"); (PStr "vol-c", PStr "snap-vol-c")]
  /\ omap copied (trace r) = Demo.vols ["snap-vol-a"; "snap-vol-c"].
Proof.
  cbv zeta.
  rewrite (main_replicates_what_it_created Demo.json_load Demo.boto3_client
             "volumes.json" "us-west-2" "us-east-1" []
             (Demo.vols ["vol-a"; "vol-b"; "vol-c"])
             (Demo.vols ["snap-vol-a"; "snap-vol-c"]) Demo.west Demo.east
             eq_refl eq_refl ltac:(discriminate) eq_refl eq_refl).
  repeat split; reflexivity.
Defined.

Lemma main_stops_when_creation_raises_witness :
  let r := main DemoMore.json_load Demo.boto3_client "untagged.json" "us-west-2"
             "us-east-1" [] in
  result r = Raise (Exn KeyErrorC "'Tags'")
  /\ omap created (trace r) = [(PStr "vol-a", PStr "snap-vol-a")]
  /\ omap waited (trace r) = [].
Proof.
  cbv zeta.
  rewrite (main_stops_when_creation_raises DemoMore.json_load Demo.boto3_client
             "untagged.json" "us-west-2" "us-east-1" []
             (Demo.vols ["vol-a"; "vol-u"; "vol-c"]) Demo.west
             (Exn KeyErrorC "'Tags'") eq_refl eq_refl eq_refl).
  repeat split; reflexivity.
Defined.
